(** * Liontech School Management System: routes and models

    A shallow embedding of [app/models.py] and [app/routes.py].

    The three tables are lists of rows, in the order the store returns
    them.  The scoped SQLAlchemy session is an explicit list of pending
    changes next to the committed tables, so that [commit] and [rollback]
    are visible operations.  Handlers live in a state-and-exception monad;
    the [try ... except Exception] of every route is the combinator
    [try_except].

    What belongs to the libraries is modelled from their documented
    behaviour and kept apart from the handlers:
    - [dict.get], truthiness (Python);
    - [Query.get], [Query.all], [Query.paginate] with its default
      [error_out=True], [session.add/delete/commit/rollback]
      (Flask-SQLAlchemy 2.x legacy query interface, which the routes use);
    - NOT NULL and UNIQUE as declared by the columns of [models.py];
    - the default store, SQLite: parameters are bound as 64-bit integers,
      text or NULL, a column converts what it is given by its affinity,
      column lengths and foreign keys are not enforced, the unique
      indexes of a table are checked after its NOT NULL columns;
    - the unit of work: an INSERT leaves out the attributes that are
      [None], so that a column default applies to them; an UPDATE sets
      the attributes that differ from the loaded row; after a commit the
      objects are expired and [to_dict] reads the row again.

    What the surroundings of a request decide is a parameter of the
    handlers ([env]): the clock, whether the commit or the reload after
    it fails, and the text SQLAlchemy renders for a constraint failure.
    Payload values are the JSON scalars without fractions. *)

From stdpp Require Import base option list gmap strings pretty.
From Stdlib Require Import ZArith Lia Ascii.

Open Scope string_scope.
Open Scope list_scope.
Open Scope Z_scope.

(** ** Python values *)

(** The scalars a JSON payload can put under a key and a column can hold.
    JSON numbers are taken as integers. *)
Inductive pyval :=
| PNone
| PBool (b : bool)
| PInt (n : Z)
| PStr (s : string).

Global Instance pyval_eq_dec : EqDecision pyval.
Proof. solve_decision. Defined.

(** [bool(v)]: what [not v] tests. *)
Definition truthy (v : pyval) : bool :=
  match v with
  | PNone => false
  | PBool b => b
  | PInt n => negb (Z.eqb n 0)
  | PStr s => negb (String.eqb s "")
  end.

(** What [jsonify] is given and sends: scalars, lists, and dicts in key
    order ([JSON_SORT_KEYS] is off). *)
#[warnings="-register-all"]
Inductive json :=
| JVal (v : pyval)
| JList (l : list json)
| JDict (kv : list (string * json)).

(** A handler returns the pair [(jsonify(...), status)]. *)
Definition response : Type := json * Z.

(** [datetime] and [date] values are carried as the text [isoformat()]
    gives for them. *)
Definition datetime : Type := string.
Definition date : Type := string.
Definition isoformat (d : string) : pyval := PStr d.

Definition opt_int (o : option Z) : pyval :=
  match o with Some n => PInt n | None => PNone end.

(** ** Exceptions *)

Inductive violation :=
| NotNull (column : string)
| Unique (column : string).

(** An [IntegrityError] carries the constraint that failed and the text
    SQLAlchemy renders for it (the driver's message wrapped with the
    statement and its parameters), which is taken from the request's
    surroundings. *)
Inductive exn :=
| AttributeError (type_name attr : string)
| NotFound
| BadRequest (description : string)
| OverflowError
| IntegrityError (v : violation) (text : string)
| OperationalError (detail : string).

(** [str(e)] as the handlers put it under ['error']. *)
Definition str (e : exn) : string :=
  match e with
  | AttributeError t a =>
      "'" +:+ t +:+ "' object has no attribute '" +:+ a +:+ "'"
  | NotFound =>
      "404 Not Found: The requested URL was not found on the server. If you entered the URL manually please check your spelling and try again."
  | BadRequest d => "400 Bad Request: " +:+ d
  | OverflowError => "Python int too large to convert to SQLite INTEGER"
  | IntegrityError _ text => text
  | OperationalError d => d
  end.

(** ** What the store does with a value *)

(** A parameter is bound as NULL, text, or a 64-bit integer (a bool as 0
    or 1); binding an integer outside that range raises [OverflowError]
    before the statement runs. *)
Definition int64_min : Z := - 2 ^ 63.
Definition int64_max : Z := 2 ^ 63 - 1.

Definition bindable (v : pyval) : bool :=
  match v with
  | PInt n => (int64_min <=? n) && (n <=? int64_max)
  | _ => true
  end.

(** A String column (TEXT affinity) keeps text and NULL and turns an
    integer into its decimal text. *)
Definition text_affinity (v : pyval) : pyval :=
  match v with
  | PNone => PNone
  | PBool b => PStr (if b then "1" else "0")
  | PInt n => PStr (pretty n)
  | PStr s => PStr s
  end.

Definition is_space (a : ascii) : bool :=
  match a with
  | " " | "009" | "010" | "011" | "012" | "013" => true
  | _ => false
  end%char.

Definition digit (a : ascii) : option Z :=
  let n := Z.of_N (N_of_ascii a) in
  if (48 <=? n) && (n <=? 57) then Some (n - 48) else None.

Fixpoint skip_spaces (s : string) : string :=
  match s with
  | String a s' => if is_space a then skip_spaces s' else s
  | EmptyString => s
  end.

Fixpoint read_digits (acc : Z) (s : string) : Z * string :=
  match s with
  | String a s' =>
      match digit a with
      | Some d => read_digits (10 * acc + d) s'
      | None => (acc, s)
      end
  | EmptyString => (acc, s)
  end.

(** The integer a text reads as: blanks, an optional sign, digits,
    blanks, within 64 bits. *)
Definition int_literal (s : string) : option Z :=
  let s := skip_spaces s in
  let '(negative, s) :=
    match s with
    | String "-" s' => (true, s')
    | String "+" s' => (false, s')
    | _ => (false, s)
    end%char in
  match s with
  | String a _ =>
      match digit a with
      | Some _ =>
          let '(n, rest) := read_digits 0 s in
          let v := if negative then - n else n in
          match skip_spaces rest with
          | EmptyString => if bindable (PInt v) then Some v else None
          | _ => None
          end
      | None => None
      end
  | EmptyString => None
  end.

(** An Integer column (INTEGER affinity) keeps integers and NULL and
    turns text that reads as an integer into that integer; other text
    stays text.  (Text that reads as a fraction, or as an integer beyond
    64 bits, would become a floating-point value, which [pyval] does not
    have; it is kept as text here.) *)
Definition integer_affinity (v : pyval) : pyval :=
  match v with
  | PNone => PNone
  | PBool b => PInt (if b then 1 else 0)
  | PInt n => PInt n
  | PStr s =>
      match int_literal s with
      | Some n => PInt n
      | None => PStr s
      end
  end.

(** ** models.py *)

Module Student.
Record t := mk {
  id : Z;
  student_id : pyval;
  first_name : pyval;
  last_name : pyval;
  email : pyval;
  phone : pyval;
  date_of_birth : option date;
  enrollment_date : option datetime;
  class_id : option Z;
  status : pyval;
  created_at : datetime;
  updated_at : datetime
}.

Global Instance eq_dec : EqDecision t.
Proof. solve_decision. Defined.

(** [self.enrollment_date.isoformat()] is not guarded: on a row whose
    enrollment_date is NULL it raises. *)
Definition to_dict (self : t) : exn + json :=
  match enrollment_date self with
  | None => inl (AttributeError "NoneType" "isoformat")
  | Some enrolled =>
      inr (JDict [
        ("id", JVal (PInt (id self)));
        ("student_id", JVal (student_id self));
        ("first_name", JVal (first_name self));
        ("last_name", JVal (last_name self));
        ("email", JVal (email self));
        ("phone", JVal (phone self));
        ("date_of_birth",
          JVal (match date_of_birth self with
                | Some d => isoformat d
                | None => PNone
                end));
        ("enrollment_date", JVal (isoformat enrolled));
        ("class_id", JVal (opt_int (class_id self)));
        ("status", JVal (status self))
      ])
  end.

(** Attribute assignment on a loaded object. *)
Definition set_first_name (v : pyval) (s : t) : t :=
  mk (id s) (student_id s) v (last_name s) (email s) (phone s)
     (date_of_birth s) (enrollment_date s) (class_id s) (status s)
     (created_at s) (updated_at s).
Definition set_last_name (v : pyval) (s : t) : t :=
  mk (id s) (student_id s) (first_name s) v (email s) (phone s)
     (date_of_birth s) (enrollment_date s) (class_id s) (status s)
     (created_at s) (updated_at s).
Definition set_email (v : pyval) (s : t) : t :=
  mk (id s) (student_id s) (first_name s) (last_name s) v (phone s)
     (date_of_birth s) (enrollment_date s) (class_id s) (status s)
     (created_at s) (updated_at s).
Definition set_phone (v : pyval) (s : t) : t :=
  mk (id s) (student_id s) (first_name s) (last_name s) (email s) v
     (date_of_birth s) (enrollment_date s) (class_id s) (status s)
     (created_at s) (updated_at s).
Definition set_status (v : pyval) (s : t) : t :=
  mk (id s) (student_id s) (first_name s) (last_name s) (email s) (phone s)
     (date_of_birth s) (enrollment_date s) (class_id s) v
     (created_at s) (updated_at s).


(** The keyword arguments [create_student] passes to [Student(...)];
    every other attribute of the new object is unset. *)
Record init := mk_init {
  init_student_id : pyval;
  init_first_name : pyval;
  init_last_name : pyval;
  init_email : pyval;
  init_phone : pyval;
  init_status : pyval
}.

(** The row an INSERT of such an object writes: the primary key is
    generated, the String columns store what they are given as text,
    unset columns take their declared default ([datetime.utcnow] for the
    three timestamps, NULL otherwise). *)
Definition inserted (pk : Z) (now : datetime) (o : init) : t :=
  mk pk (text_affinity (init_student_id o))
     (text_affinity (init_first_name o)) (text_affinity (init_last_name o))
     (text_affinity (init_email o)) (text_affinity (init_phone o))
     None (Some now) None (text_affinity (init_status o)) now now.

(** What of an object is bound by its INSERT. *)
Definition bound (o : init) : list pyval :=
  [init_student_id o; init_first_name o; init_last_name o; init_email o;
   init_phone o; init_status o].

(** The row an UPDATE leaves for a loaded object [s] whose row was [old]:
    the columns whose attribute differs from the row are written, as
    text, and [updated_at] takes its [onupdate] value. *)
Definition store_column (old new : pyval) : pyval :=
  if decide (old = new) then old else text_affinity new.

Definition updated (now : datetime) (old s : t) : t :=
  mk (id old) (student_id old)
     (store_column (first_name old) (first_name s))
     (store_column (last_name old) (last_name s))
     (store_column (email old) (email s))
     (store_column (phone old) (phone s))
     (date_of_birth old) (enrollment_date old) (class_id old)
     (store_column (status old) (status s))
     (created_at old) now.

(** The attributes an UPDATE binds: those that differ from the row. *)
Definition binds (old new : pyval) : bool :=
  bool_decide (old = new) || bindable new.

Definition update_binds (old s : t) : bool :=
  binds (first_name old) (first_name s)
  && binds (last_name old) (last_name s)
  && binds (email old) (email s)
  && binds (phone old) (phone s)
  && binds (status old) (status s).
End Student.

Module Teacher.
Record t := mk {
  id : Z;
  teacher_id : pyval;
  first_name : pyval;
  last_name : pyval;
  email : pyval;
  phone : pyval;
  specialization : pyval;
  hire_date : option datetime;
  status : pyval;
  created_at : datetime;
  updated_at : datetime
}.

(** [self.hire_date.isoformat()] raises on a NULL hire_date. *)
Definition to_dict (self : t) : exn + json :=
  match hire_date self with
  | None => inl (AttributeError "NoneType" "isoformat")
  | Some hired =>
      inr (JDict [
        ("id", JVal (PInt (id self)));
        ("teacher_id", JVal (teacher_id self));
        ("first_name", JVal (first_name self));
        ("last_name", JVal (last_name self));
        ("email", JVal (email self));
        ("phone", JVal (phone self));
        ("specialization", JVal (specialization self));
        ("hire_date", JVal (isoformat hired));
        ("status", JVal (status self))
      ])
  end.

Record init := mk_init {
  init_teacher_id : pyval;
  init_first_name : pyval;
  init_last_name : pyval;
  init_email : pyval;
  init_phone : pyval;
  init_specialization : pyval;
  init_status : pyval
}.

Definition inserted (pk : Z) (now : datetime) (o : init) : t :=
  mk pk (text_affinity (init_teacher_id o))
     (text_affinity (init_first_name o)) (text_affinity (init_last_name o))
     (text_affinity (init_email o)) (text_affinity (init_phone o))
     (text_affinity (init_specialization o)) (Some now)
     (text_affinity (init_status o)) now now.

Definition bound (o : init) : list pyval :=
  [init_teacher_id o; init_first_name o; init_last_name o; init_email o;
   init_phone o; init_specialization o; init_status o].
End Teacher.

Module Class_.
Record t := mk {
  id : Z;
  class_name : pyval;
  grade_level : pyval;
  teacher_id : pyval;
  max_capacity : pyval;
  room_number : pyval;
  status : pyval;
  created_at : datetime;
  updated_at : datetime
}.

(** The [students] relationship: the Student rows whose [class_id] is
    this class's primary key, loaded from the store on access. *)
Definition students (all : list Student.t) (self : t) : list Student.t :=
  List.filter
    (fun s => match Student.class_id s with
              | Some c => Z.eqb c (id self)
              | None => false
              end) all.

Definition to_dict (all : list Student.t) (self : t) : json :=
  JDict [
    ("id", JVal (PInt (id self)));
    ("class_name", JVal (class_name self));
    ("grade_level", JVal (grade_level self));
    ("teacher_id", JVal (teacher_id self));
    ("max_capacity", JVal (max_capacity self));
    ("room_number", JVal (room_number self));
    ("status", JVal (status self));
    ("student_count", JVal (PInt (Z.of_nat (length (students all self)))))
  ].

Record init := mk_init {
  init_class_name : pyval;
  init_grade_level : pyval;
  init_teacher_id : pyval;
  init_max_capacity : pyval;
  init_room_number : pyval;
  init_status : pyval
}.

(** The String columns store text, [teacher_id] and [max_capacity] are
    Integer columns; [max_capacity] has the column default 40, which an
    INSERT uses when the attribute is None. *)
Definition inserted (pk : Z) (now : datetime) (o : init) : t :=
  mk pk (text_affinity (init_class_name o))
     (text_affinity (init_grade_level o))
     (integer_affinity (init_teacher_id o))
     (match init_max_capacity o with
      | PNone => PInt 40
      | v => integer_affinity v
      end)
     (text_affinity (init_room_number o)) (text_affinity (init_status o))
     now now.

Definition bound (o : init) : list pyval :=
  [init_class_name o; init_grade_level o; init_teacher_id o;
   init_max_capacity o; init_room_number o; init_status o].
End Class_.

(** ** The store and the session *)

Record database := mk_database {
  students : list Student.t;
  teachers : list Teacher.t;
  classes : list Class_.t
}.

(** What a session holds between [add], attribute assignment or [delete]
    and the next [commit] or [rollback]. *)
Inductive change :=
| NewStudent (o : Student.init)
| DirtyStudent (s : Student.t)
| DeletedStudent (s : Student.t)
| NewTeacher (o : Teacher.init)
| NewClass (o : Class_.init).

Record world := mk_world {
  db : database;
  session : list change
}.

(** Every request starts on a session with nothing pending. *)
Definition fresh (d : database) : world := mk_world d [].

(** What a request sees of its surroundings: the clock; whether the
    storage engine fails the COMMIT of this request; whether it fails the
    SELECT that reloads an object after the commit; the text SQLAlchemy
    renders for a constraint that fails. *)
Record env := mk_env {
  utcnow : datetime;
  now_timestamp : string;
  commit_fault : option exn;
  reload_fault : option exn;
  integrity_text : violation -> string
}.

(** ** The handler monad: state, and an exception or a value *)

Definition M (A : Type) : Type := world -> (exn + A) * world.

Global Instance M_ret : MRet M := fun A x w => (inr x, w).
Global Instance M_bind : MBind M := fun A B f m w =>
  match m w with
  | (inl e, w') => (inl e, w')
  | (inr x, w') => f x w'
  end.

Definition raise {A} (e : exn) : M A := fun w => (inl e, w).

(** A computation that touches no state. *)
Definition lift {A} (r : exn + A) : M A := fun w => (r, w).

(** [[f(x) for x in l]], stopping at the first [f(x)] that raises. *)
Fixpoint for_each {A B} (f : A -> exn + B) (l : list A) : exn + list B :=
  match l with
  | [] => inr []
  | x :: l' =>
      match f x with
      | inl e => inl e
      | inr y =>
          match for_each f l' with
          | inl e => inl e
          | inr ys => inr (y :: ys)
          end
      end
  end.

(** [try: body except Exception as e: handler(e)] *)
Definition try_except {A} (body : M A) (handler : exn -> M A) : M A :=
  fun w =>
    match body w with
    | (inl e, w') => handler e w'
    | (inr x, w') => (inr x, w')
    end.

(** ** Constraints declared by the columns *)

Definition not_null (column : string) (v : pyval) : option violation :=
  if decide (v = PNone) then Some (NotNull column) else None.

Definition unique (column : string) (v : pyval) (others : list pyval)
  : option violation :=
  if decide (v ∈ others) then Some (Unique column) else None.

(** The first constraint that fails, in the order the store checks them:
    NOT NULL in column order, then the unique indexes, the one created
    last first. *)
Definition first_violation (checks : list (option violation))
  : option violation :=
  foldr (fun c rest => match c with Some v => Some v | None => rest end)
        None checks.

(** A column of an UPDATE is checked only when its value changes. *)
Definition when_changed (old new : pyval) (c : option violation)
  : option violation :=
  if decide (old = new) then None else c.

(** The primary key the store generates for the next row. *)
Definition next_id (ids : list Z) : Z := 1 + foldr Z.max 0 ids.

Definition refuse (ev : env) (v : violation) : exn :=
  IntegrityError v (integrity_text ev v).

Definition insert_student (ev : env) (o : Student.init)
    (rows : list Student.t) : exn + list Student.t :=
  if negb (forallb bindable (Student.bound o)) then inl OverflowError
  else
    let row :=
      Student.inserted (next_id (Student.id <$> rows)) (utcnow ev) o in
    match first_violation [
      not_null "students.student_id" (Student.student_id row);
      not_null "students.first_name" (Student.first_name row);
      not_null "students.last_name" (Student.last_name row);
      not_null "students.email" (Student.email row);
      unique "students.email" (Student.email row) (Student.email <$> rows);
      unique "students.student_id" (Student.student_id row)
             (Student.student_id <$> rows)
    ] with
    | Some v => inl (refuse ev v)
    | None => inr (rows ++ [row])
    end.

Definition other_students (s : Student.t) (rows : list Student.t)
  : list Student.t :=
  List.filter (fun r => negb (Z.eqb (Student.id r) (Student.id s))) rows.

Definition replace_student (s : Student.t) (rows : list Student.t)
  : list Student.t :=
  (fun r => if Z.eqb (Student.id r) (Student.id s) then s else r) <$> rows.

(** An object whose attributes equal its row's causes no UPDATE; otherwise
    the attributes that differ are bound and written, and the constraints
    of the columns written are checked. *)
Definition update_student_row (ev : env) (s : Student.t)
    (rows : list Student.t) : exn + list Student.t :=
  match List.find (fun r => Z.eqb (Student.id r) (Student.id s)) rows with
  | None => inr rows
  | Some old =>
      if decide (old = s) then inr rows
      else if negb (Student.update_binds old s) then inl OverflowError
      else
        let row := Student.updated (utcnow ev) old s in
        let others := other_students s rows in
        match first_violation [
          when_changed (Student.first_name old) (Student.first_name s)
            (not_null "students.first_name" (Student.first_name row));
          when_changed (Student.last_name old) (Student.last_name s)
            (not_null "students.last_name" (Student.last_name row));
          when_changed (Student.email old) (Student.email s)
            (not_null "students.email" (Student.email row));
          when_changed (Student.email old) (Student.email s)
            (unique "students.email" (Student.email row)
                    (Student.email <$> others))
        ] with
        | Some v => inl (refuse ev v)
        | None => inr (replace_student row rows)
        end
  end.

Definition delete_student_row (s : Student.t) (rows : list Student.t)
  : list Student.t := other_students s rows.

Definition insert_teacher (ev : env) (o : Teacher.init)
    (rows : list Teacher.t) : exn + list Teacher.t :=
  if negb (forallb bindable (Teacher.bound o)) then inl OverflowError
  else
    let row :=
      Teacher.inserted (next_id (Teacher.id <$> rows)) (utcnow ev) o in
    match first_violation [
      not_null "teachers.teacher_id" (Teacher.teacher_id row);
      not_null "teachers.first_name" (Teacher.first_name row);
      not_null "teachers.last_name" (Teacher.last_name row);
      not_null "teachers.email" (Teacher.email row);
      unique "teachers.email" (Teacher.email row) (Teacher.email <$> rows);
      unique "teachers.teacher_id" (Teacher.teacher_id row)
             (Teacher.teacher_id <$> rows)
    ] with
    | Some v => inl (refuse ev v)
    | None => inr (rows ++ [row])
    end.

Definition insert_class (ev : env) (o : Class_.init)
    (rows : list Class_.t) : exn + list Class_.t :=
  if negb (forallb bindable (Class_.bound o)) then inl OverflowError
  else
    let row :=
      Class_.inserted (next_id (Class_.id <$> rows)) (utcnow ev) o in
    match first_violation [
      not_null "classes.class_name" (Class_.class_name row);
      not_null "classes.grade_level" (Class_.grade_level row);
      unique "classes.class_name" (Class_.class_name row)
             (Class_.class_name <$> rows)
    ] with
    | Some v => inl (refuse ev v)
    | None => inr (rows ++ [row])
    end.

(** ** Flush, commit, rollback *)

Definition apply_change (ev : env) (d : database) (c : change)
  : exn + database :=
  match c with
  | NewStudent o =>
      match insert_student ev o (students d) with
      | inl e => inl e
      | inr rows => inr (mk_database rows (teachers d) (classes d))
      end
  | DirtyStudent s =>
      match update_student_row ev s (students d) with
      | inl e => inl e
      | inr rows => inr (mk_database rows (teachers d) (classes d))
      end
  | DeletedStudent s =>
      inr (mk_database (delete_student_row s (students d))
                       (teachers d) (classes d))
  | NewTeacher o =>
      match insert_teacher ev o (teachers d) with
      | inl e => inl e
      | inr rows => inr (mk_database (students d) rows (classes d))
      end
  | NewClass o =>
      match insert_class ev o (classes d) with
      | inl e => inl e
      | inr rows => inr (mk_database (students d) (teachers d) rows)
      end
  end.

Fixpoint flush (ev : env) (d : database) (cs : list change)
  : exn + database :=
  match cs with
  | [] => inr d
  | c :: cs' =>
      match apply_change ev d c with
      | inl e => inl e
      | inr d' => flush ev d' cs'
      end
  end.

Module session_.
Definition add (c : change) : M unit :=
  fun w => (inr tt, mk_world (db w) (session w ++ [c])).

(** Assigning to an attribute of a loaded student: the session tracks
    one object per row, so a later assignment replaces what an earlier
    one left pending. *)
Definition assign (s : Student.t) : M unit :=
  fun w =>
    (inr tt,
     mk_world (db w)
       (List.filter
          (fun c => match c with
                    | DirtyStudent s' =>
                        negb (Z.eqb (Student.id s') (Student.id s))
                    | _ => true
                    end) (session w)
        ++ [DirtyStudent s])).

Definition delete (s : Student.t) : M unit := add (DeletedStudent s).

(** The pending changes reach the tables together or not at all; a
    commit that raises leaves them pending until [rollback]. *)
Definition commit (ev : env) : M unit :=
  fun w =>
    match flush ev (db w) (session w) with
    | inl e => (inl e, w)
    | inr d' =>
        match commit_fault ev with
        | Some e => (inl e, w)
        | None => (inr tt, mk_world d' [])
        end
    end.

Definition rollback : M unit :=
  fun w => (inr tt, mk_world (db w) []).
End session_.

(** ** Queries *)

Module query.
(** [Query.get(pk)]: the row with that primary key, or None.  The key is
    bound as a 64-bit integer: a key beyond that range, which no stored
    row has, raises [OverflowError]. *)
Definition get (pk : Z) : M (option Student.t) :=
  fun w =>
    match List.find (fun r => Z.eqb (Student.id r) pk) (students (db w)) with
    | Some s => (inr (Some s), w)
    | None =>
        if bindable (PInt pk) then (inr None, w) else (inl OverflowError, w)
    end.

Definition all_classes : M (list Class_.t) :=
  fun w => (inr (classes (db w)), w).

Definition all_students : M (list Student.t) :=
  fun w => (inr (students (db w)), w).

Definition all_teachers : M (list Teacher.t) :=
  fun w => (inr (teachers (db w)), w).

Record Pagination (A : Type) := mk_pagination {
  items : list A;
  total : Z;
  page : Z;
  per_page : Z
}.
Arguments mk_pagination {A}.
Arguments items {A}.
Arguments total {A}.
Arguments page {A}.
Arguments per_page {A}.

(** [ceil(total / per_page)], 0 when [per_page] is 0. *)
Definition pages {A} (p : Pagination A) : Z :=
  if Z.eqb (per_page p) 0 then 0
  else - ((- total p) / per_page p).

(** [Query.paginate(page, per_page)], [error_out] left at True:
    [abort(404)] for a page below 1 or a negative page size; then the
    rows are read with LIMIT per_page OFFSET (page - 1) * per_page, both
    bound as 64-bit integers; [abort(404)] for a page other than the
    first that holds no row. *)
Definition paginate {A} (rows : list A) (page per_page : Z)
  : M (Pagination A) :=
  if Z.ltb page 1 then raise NotFound
  else if Z.ltb per_page 0 then raise NotFound
  else if negb (bindable (PInt per_page)
                && bindable (PInt ((page - 1) * per_page)))
  then raise OverflowError
  else
    let items :=
      take (Z.to_nat per_page)
           (drop (Z.to_nat ((page - 1) * per_page)) rows) in
    if (Nat.eqb (length items) 0 && negb (Z.eqb page 1))%bool
    then raise NotFound
    else mret (mk_pagination items (Z.of_nat (length rows)) page per_page).
End query.

(** ** Requests *)

(** What [request.get_json()] returns: a dict, or a value of another
    type, which has no [get]. *)
Inductive parsed :=
| Obj (d : gmap string pyval)
| NonObj (type_name : string).

(** [args] holds the query parameters that read as integers;
    [json] is what [get_json()] returns or raises. *)
Record request := mk_request {
  args : gmap string Z;
  json_body : exn + parsed
}.

(** [request.args.get(key, default, type=int)] *)
Definition args_get (r : request) (key : string) (default : Z) : Z :=
  match args r !! key with
  | Some n => n
  | None => default
  end.

Definition get_json (r : request) : M parsed :=
  match json_body r with
  | inl e => raise e
  | inr p => mret p
  end.

(** [data.get(key, default)] *)
Definition dict_get (data : parsed) (key : string) (default : pyval)
  : M pyval :=
  match data with
  | Obj d =>
      mret (match d !! key with
            | Some v => v
            | None => default
            end)
  | NonObj t => raise (AttributeError t "get")
  end.

Definition error (msg : string) : json := JDict [("error", JVal (PStr msg))].
Definition message (msg : string) : json :=
  JDict [("message", JVal (PStr msg))].

(** The [except] clause of the read-only routes. *)
Definition report (e : exn) : M response := mret (error (str e), 500).

(** The [except] clause of the mutating routes. *)
Definition rollback_and_report (e : exn) : M response :=
  session_.rollback;; mret (error (str e), 500).

(** A commit expires the objects of the session: the first attribute
    read afterwards, in [to_dict], reloads the row by a SELECT, which the
    storage engine can fail. *)
Definition reload {A} (ev : env) (row : A) : M A :=
  match reload_fault ev with
  | Some e => raise e
  | None => mret row
  end.

(** The object a committed [add] leaves in the handler's variable: the row
    its INSERT appended. *)
Definition new_student (ev : env) (o : Student.init) : M Student.t :=
  fun w =>
    reload ev (List.last (students (db w)) (Student.inserted 0 "" o)) w.
Definition new_teacher (ev : env) (o : Teacher.init) : M Teacher.t :=
  fun w =>
    reload ev (List.last (teachers (db w)) (Teacher.inserted 0 "" o)) w.
Definition new_class (ev : env) (o : Class_.init) : M Class_.t :=
  fun w =>
    reload ev (List.last (classes (db w)) (Class_.inserted 0 "" o)) w.

(** A loaded object after a commit: its row as the store now has it. *)
Definition reloaded (ev : env) (s : Student.t) : M Student.t :=
  fun w =>
    reload ev
      (match List.find (fun r => Z.eqb (Student.id r) (Student.id s))
                       (students (db w)) with
       | Some r => r
       | None => s
       end) w.

(** ** routes.py: students *)

Definition get_all_students_body (req : request) : M response :=
  let page := args_get req "page" 1 in
  let per_page := args_get req "per_page" 10 in
  rows ← query.all_students;
  pagination ← query.paginate rows page per_page;
  students ← lift (for_each Student.to_dict (query.items pagination));
  mret (JDict [
          ("students", JList students);
          ("total", JVal (PInt (query.total pagination)));
          ("pages", JVal (PInt (query.pages pagination)));
          ("current_page", JVal (PInt page))
        ], 200).

Definition get_all_students (req : request) : M response :=
  try_except (get_all_students_body req) report.

Definition get_student_body (student_id : Z) : M response :=
  student ← query.get student_id;
  match student with
  | None => mret (error "Student not found", 404)
  | Some student =>
      body ← lift (Student.to_dict student);
      mret (body, 200)
  end.

Definition get_student (student_id : Z) : M response :=
  try_except (get_student_body student_id) report.

Definition missing_required_fields : response :=
  (error "Missing required fields", 400).

Definition create_student_body (ev : env) (req : request) : M response :=
  data ← get_json req;
  v1 ← dict_get data "first_name" PNone;
  if negb (truthy v1) then mret missing_required_fields else
  v2 ← dict_get data "last_name" PNone;
  if negb (truthy v2) then mret missing_required_fields else
  v3 ← dict_get data "email" PNone;
  if negb (truthy v3) then mret missing_required_fields else
  student_id ← dict_get data "student_id" (PStr ("STU-" +:+ now_timestamp ev));
  first_name ← dict_get data "first_name" PNone;
  last_name ← dict_get data "last_name" PNone;
  email ← dict_get data "email" PNone;
  phone ← dict_get data "phone" PNone;
  let student :=
    Student.mk_init student_id first_name last_name email phone
                    (PStr "active") in
  session_.add (NewStudent student);;
  session_.commit ev;;
  student ← new_student ev student;
  body ← lift (Student.to_dict student);
  mret (body, 201).

Definition create_student (ev : env) (req : request) : M response :=
  try_except (create_student_body ev req) rollback_and_report.

Definition update_student_body (ev : env) (req : request) (student_id : Z)
  : M response :=
  student ← query.get student_id;
  match student with
  | None => mret (error "Student not found", 404)
  | Some student =>
      data ← get_json req;
      v ← dict_get data "first_name" (Student.first_name student);
      let student := Student.set_first_name v student in
      session_.assign student;;
      v ← dict_get data "last_name" (Student.last_name student);
      let student := Student.set_last_name v student in
      session_.assign student;;
      v ← dict_get data "email" (Student.email student);
      let student := Student.set_email v student in
      session_.assign student;;
      v ← dict_get data "phone" (Student.phone student);
      let student := Student.set_phone v student in
      session_.assign student;;
      v ← dict_get data "status" (Student.status student);
      let student := Student.set_status v student in
      session_.assign student;;
      session_.commit ev;;
      student ← reloaded ev student;
      body ← lift (Student.to_dict student);
      mret (body, 200)
  end.

Definition update_student (ev : env) (req : request) (student_id : Z)
  : M response :=
  try_except (update_student_body ev req student_id) rollback_and_report.

Definition delete_student_body (ev : env) (student_id : Z) : M response :=
  student ← query.get student_id;
  match student with
  | None => mret (error "Student not found", 404)
  | Some student =>
      session_.delete student;;
      session_.commit ev;;
      mret (message "Student deleted successfully", 200)
  end.

Definition delete_student (ev : env) (student_id : Z) : M response :=
  try_except (delete_student_body ev student_id) rollback_and_report.

(** ** routes.py: teachers *)

Definition get_all_teachers_body (req : request) : M response :=
  let page := args_get req "page" 1 in
  let per_page := args_get req "per_page" 10 in
  rows ← query.all_teachers;
  pagination ← query.paginate rows page per_page;
  teachers ← lift (for_each Teacher.to_dict (query.items pagination));
  mret (JDict [
          ("teachers", JList teachers);
          ("total", JVal (PInt (query.total pagination)));
          ("pages", JVal (PInt (query.pages pagination)));
          ("current_page", JVal (PInt page))
        ], 200).

Definition get_all_teachers (req : request) : M response :=
  try_except (get_all_teachers_body req) report.

Definition create_teacher_body (ev : env) (req : request) : M response :=
  data ← get_json req;
  v1 ← dict_get data "first_name" PNone;
  if negb (truthy v1) then mret missing_required_fields else
  v2 ← dict_get data "last_name" PNone;
  if negb (truthy v2) then mret missing_required_fields else
  v3 ← dict_get data "email" PNone;
  if negb (truthy v3) then mret missing_required_fields else
  teacher_id ← dict_get data "teacher_id" (PStr ("TCH-" +:+ now_timestamp ev));
  first_name ← dict_get data "first_name" PNone;
  last_name ← dict_get data "last_name" PNone;
  email ← dict_get data "email" PNone;
  phone ← dict_get data "phone" PNone;
  specialization ← dict_get data "specialization" PNone;
  let teacher :=
    Teacher.mk_init teacher_id first_name last_name email phone
                    specialization (PStr "active") in
  session_.add (NewTeacher teacher);;
  session_.commit ev;;
  teacher ← new_teacher ev teacher;
  body ← lift (Teacher.to_dict teacher);
  mret (body, 201).

Definition create_teacher (ev : env) (req : request) : M response :=
  try_except (create_teacher_body ev req) rollback_and_report.

(** ** routes.py: classes *)

(** [all] is what the [students] relationship of each class is loaded
    from when [to_dict] reads it. *)
Definition get_all_classes_body : M response :=
  classes ← query.all_classes;
  all ← query.all_students;
  mret (JDict [
          ("classes", JList (Class_.to_dict all <$> classes));
          ("total", JVal (PInt (Z.of_nat (length classes))))
        ], 200).

Definition get_all_classes : M response :=
  try_except get_all_classes_body report.

Definition create_class_body (ev : env) (req : request) : M response :=
  data ← get_json req;
  v1 ← dict_get data "class_name" PNone;
  if negb (truthy v1) then mret missing_required_fields else
  v2 ← dict_get data "grade_level" PNone;
  if negb (truthy v2) then mret missing_required_fields else
  class_name ← dict_get data "class_name" PNone;
  grade_level ← dict_get data "grade_level" PNone;
  teacher_id ← dict_get data "teacher_id" PNone;
  max_capacity ← dict_get data "max_capacity" (PInt 40);
  room_number ← dict_get data "room_number" PNone;
  let class_obj :=
    Class_.mk_init class_name grade_level teacher_id max_capacity
                   room_number (PStr "active") in
  session_.add (NewClass class_obj);;
  session_.commit ev;;
  class_obj ← new_class ev class_obj;
  all ← query.all_students;
  mret (Class_.to_dict all class_obj, 201).

Definition create_class (ev : env) (req : request) : M response :=
  try_except (create_class_body ev req) rollback_and_report.

(** ** Vocabulary of the statements *)

(** Reading an [Obj] payload: [data.get(key, default)] as a function. *)
Definition lookup_or (d : gmap string pyval) (key : string) (default : pyval)
  : pyval :=
  match d !! key with Some v => v | None => default end.

(** A key of a serialized entity. *)
Definition json_field (key : string) (j : json) : option json :=
  match j with
  | JDict kv => snd <$> List.find (fun p => String.eqb (fst p) key) kv
  | _ => None
  end.

(** Some required key is not in the payload. *)
Definition lacks (required : list string) (d : gmap string pyval) : Prop :=
  ∃ k, k ∈ required ∧ d !! k = None.


(** Page [p] of size [s] exists over [n] rows: numbered from 1, of a
    non-negative size, and either the first page or one that holds a row. *)
Definition page_exists (p s n : Z) : Prop :=
  1 ≤ p ∧ 0 ≤ s ∧ (p = 1 ∨ (0 < s ∧ (p - 1) * s < n)).

(** The routes that write, and the [try] block of each. *)
Inductive mutation :=
| CreateStudent
| UpdateStudent (student_id : Z)
| DeleteStudent (student_id : Z)
| CreateTeacher
| CreateClass.

Definition try_block (m : mutation) (ev : env) (req : request) : M response :=
  match m with
  | CreateStudent => create_student_body ev req
  | UpdateStudent pk => update_student_body ev req pk
  | DeleteStudent pk => delete_student_body ev pk
  | CreateTeacher => create_teacher_body ev req
  | CreateClass => create_class_body ev req
  end.

Definition route (m : mutation) (ev : env) (req : request) : M response :=
  match m with
  | CreateStudent => create_student ev req
  | UpdateStudent pk => update_student ev req pk
  | DeleteStudent pk => delete_student ev pk
  | CreateTeacher => create_teacher ev req
  | CreateClass => create_class ev req
  end.

(** The student a PUT payload asks for: each of the five updatable
    attributes is the payload's value when the key is present and the
    prior value otherwise. *)
Definition overwritten (d : gmap string pyval) (s : Student.t) : Student.t :=
  Student.mk (Student.id s) (Student.student_id s)
    (lookup_or d "first_name" (Student.first_name s))
    (lookup_or d "last_name" (Student.last_name s))
    (lookup_or d "email" (Student.email s))
    (lookup_or d "phone" (Student.phone s))
    (Student.date_of_birth s) (Student.enrollment_date s)
    (Student.class_id s)
    (lookup_or d "status" (Student.status s))
    (Student.created_at s) (Student.updated_at s).

(** The attributes PUT assigns, by payload key. *)
Definition updatable : list (string * (Student.t -> pyval)) :=
  [("first_name", Student.first_name); ("last_name", Student.last_name);
   ("email", Student.email); ("phone", Student.phone);
   ("status", Student.status)].

(** The students table takes the UPDATE that payload [d] asks for on
    student [s]: every changed value can be bound (an integer is within
    64 bits), a changed first_name, last_name or email is not null, and a
    changed email, as the column stores it, is not the email of another
    student. *)
Definition store_accepts_update (s : Student.t) (d : gmap string pyval)
    (rows : list Student.t) : Prop :=
  let fn := lookup_or d "first_name" (Student.first_name s) in
  let ln := lookup_or d "last_name" (Student.last_name s) in
  let em := lookup_or d "email" (Student.email s) in
  (∀ key get, (key, get) ∈ updatable →
     lookup_or d key (get s) = get s
     ∨ bindable (lookup_or d key (get s)) = true)
  ∧ (fn = Student.first_name s ∨ fn ≠ PNone)
  ∧ (ln = Student.last_name s ∨ ln ≠ PNone)
  ∧ (em = Student.email s
     ∨ (em ≠ PNone
        ∧ ∀ r, r ∈ rows → Student.id r ≠ Student.id s →
               Student.email r ≠ text_affinity em)).


(** Every required key of a creation payload holds a truthy value. *)
Definition has_required (required : list string) (d : gmap string pyval)
  : Prop :=
  ∀ k, k ∈ required → truthy (lookup_or d k PNone) = true.

(** The objects the creation routes build from a payload. *)
Definition requested_student (ev : env) (d : gmap string pyval)
  : Student.init :=
  Student.mk_init
    (lookup_or d "student_id" (PStr ("STU-" +:+ now_timestamp ev)))
    (lookup_or d "first_name" PNone) (lookup_or d "last_name" PNone)
    (lookup_or d "email" PNone) (lookup_or d "phone" PNone) (PStr "active").

Definition requested_teacher (ev : env) (d : gmap string pyval)
  : Teacher.init :=
  Teacher.mk_init
    (lookup_or d "teacher_id" (PStr ("TCH-" +:+ now_timestamp ev)))
    (lookup_or d "first_name" PNone) (lookup_or d "last_name" PNone)
    (lookup_or d "email" PNone) (lookup_or d "phone" PNone)
    (lookup_or d "specialization" PNone) (PStr "active").

(** ** A small school, for the examples *)

(** A rendering of constraint failures, abridged. *)
Definition sample_text (v : violation) : string :=
  match v with
  | NotNull c => "(sqlite3.IntegrityError) NOT NULL constraint failed: " +:+ c
  | Unique c => "(sqlite3.IntegrityError) UNIQUE constraint failed: " +:+ c
  end.

Definition ev0 : env :=
  mk_env "2026-03-02T09:00:00" "1772442000.0" None None sample_text.
Definition ev1 : env :=
  mk_env "2026-03-02T09:00:05" "1772442005.25" None None sample_text.
Definition ev_locked : env :=
  mk_env "2026-03-02T09:00:00" "1772442000.0"
         (Some (OperationalError "database is locked")) None sample_text.
Definition ev_gone : env :=
  mk_env "2026-03-02T09:00:00" "1772442000.0" None
         (Some (OperationalError "unable to open database file"))
         sample_text.

Definition ada : Student.t :=
  Student.mk 1 (PStr "STU-1") (PStr "Ada") (PStr "Lovelace")
    (PStr "ada@liontech.example") (PStr "555-0100") None
    (Some "2026-01-05T08:00:00") (Some 1) (PStr "active")
    "2026-01-05T08:00:00" "2026-01-05T08:00:00".
Definition bob : Student.t :=
  Student.mk 2 (PStr "STU-2") (PStr "Bob") (PStr "Noyce")
    (PStr "bob@liontech.example") PNone None
    (Some "2026-01-05T08:10:00") (Some 1) (PStr "active")
    "2026-01-05T08:10:00" "2026-01-05T08:10:00".
Definition eve : Student.t :=
  Student.mk 3 (PStr "STU-1772442000.0") (PStr "Eve") (PStr "Curie")
    (PStr "eve@liontech.example") PNone None
    (Some "2026-03-02T09:00:00") None (PStr "active")
    "2026-03-02T09:00:00" "2026-03-02T09:00:00".
(** A student whose enrollment_date is NULL. *)
Definition zed : Student.t :=
  Student.mk 4 (PStr "STU-4") (PStr "Zed") (PStr "Hamilton")
    (PStr "zed@liontech.example") PNone None
    None None (PStr "active")
    "2025-09-01T08:00:00" "2025-09-01T08:00:00".
Definition form1 : Class_.t :=
  Class_.mk 1 (PStr "Form 1") (PStr "7") PNone (PInt 40) PNone
    (PStr "active") "2026-01-04T08:00:00" "2026-01-04T08:00:00".

Definition school : database := mk_database [ada; bob] [] [form1].
Definition school3 : database := mk_database [ada; bob; eve] [] [form1].
Definition school_zed : database := mk_database [ada; zed] [] [form1].

(** A GET carries no JSON; a POST or PUT carries the object [d]. *)
Definition no_json : exn + parsed := inr (NonObj "NoneType").
Definition post (d : gmap string pyval) : request :=
  mk_request ∅ (inr (Obj d)).
Definition put (d : gmap string pyval) : request := post d.

Definition grace : gmap string pyval :=
  {[ "first_name" := PStr "Grace"; "last_name" := PStr "Hopper";
     "email" := PStr "grace@liontech.example" ]}.
Definition alan : gmap string pyval :=
  {[ "first_name" := PStr "Alan"; "last_name" := PStr "Turing";
     "email" := PStr "alan@liontech.example" ]}.

(** LIMIT [s] and OFFSET [(p - 1) * s] of page [p] can be bound. *)
Definition page_bindable (p s : Z) : Prop :=
  s ≤ int64_max ∧ (p - 1) * s ≤ int64_max.

(** Rows that [to_dict] can serialize. *)
Definition enrolled (r : Student.t) : Prop :=
  is_Some (Student.enrollment_date r).
Definition hired (r : Teacher.t) : Prop :=
  is_Some (Teacher.hire_date r).

(** The table rows after an UPDATE of [old] by the loaded object [s]. *)
Definition row_after (ev : env) (old s : Student.t) : Student.t :=
  if decide (old = s) then old else Student.updated (utcnow ev) old s.

Definition requested_class (d : gmap string pyval) : Class_.init :=
  Class_.mk_init
    (lookup_or d "class_name" PNone) (lookup_or d "grade_level" PNone)
    (lookup_or d "teacher_id" PNone) (lookup_or d "max_capacity" (PInt 40))
    (lookup_or d "room_number" PNone) (PStr "active").

(** The one change a mutating route can commit on tables [d]. *)
Definition change_of_route (m : mutation) (ev : env) (d : database)
    (c : change) : Prop :=
  match m, c with
  | CreateStudent, NewStudent o =>
      ∃ dct, o = requested_student ev dct
             ∧ has_required ["first_name"; "last_name"; "email"] dct
  | UpdateStudent pk, DirtyStudent s' =>
      ∃ s dct,
        List.find (fun r => Z.eqb (Student.id r) pk) (students d) = Some s
        ∧ s' = overwritten dct s
  | DeleteStudent pk, DeletedStudent s =>
      List.find (fun r => Z.eqb (Student.id r) pk) (students d) = Some s
  | CreateTeacher, NewTeacher o =>
      ∃ dct, o = requested_teacher ev dct
             ∧ has_required ["first_name"; "last_name"; "email"] dct
  | CreateClass, NewClass o =>
      ∃ dct, o = requested_class dct
             ∧ has_required ["class_name"; "grade_level"] dct
  | _, _ => False
  end.

(** Exception [e] left the try block of route [m] after its commit had
    made tables [d] into [d']: the reload of the committed row failed, or
    the updated student has no enrollment_date for [to_dict]. *)
Definition raised_after_commit (m : mutation) (ev : env) (d : database)
    (e : exn) (d' : database) : Prop :=
  commit_fault ev = None
  ∧ (∃ c, change_of_route m ev d c ∧ apply_change ev d c = inr d')
  ∧ (reload_fault ev = Some e
     ∨ ∃ pk s,
         m = UpdateStudent pk
         ∧ List.find (fun r => Z.eqb (Student.id r) pk) (students d) = Some s
         ∧ Student.enrollment_date s = None).

(** ** routes.py: main routes *)

Definition index : M response :=
  mret (JDict [
          ("message", JVal (PStr "Welcome to Liontech School Management System"));
          ("version", JVal (PStr "1.0.0"));
          ("status", JVal (PStr "running"))
        ], 200).

(** What the storage engine answers a statement of the main routes with:
    [probe] is the error it raises, if any. *)
Definition answered {A} (probe : option exn) (result : M A) : M A :=
  match probe with
  | Some e => raise e
  | None => result
  end.

(** [db.session.execute('SELECT 1')]: the statement reads no table. *)
Definition execute_select_1 (probe : option exn) : M unit :=
  answered probe (mret tt).

Definition health_check_body (ev : env) (probe : option exn) : M response :=
  execute_select_1 probe;;
  mret (JDict [
          ("status", JVal (PStr "healthy"));
          ("timestamp", JVal (isoformat (utcnow ev)))
        ], 200).

Definition health_check (ev : env) (probe : option exn) : M response :=
  try_except (health_check_body ev probe)
    (fun e => mret (JDict [
                      ("status", JVal (PStr "unhealthy"));
                      ("error", JVal (PStr (str e)))
                    ], 500)).

(** [Query.count()] *)
Definition count_students (probe : option exn) : M Z :=
  answered probe (fun w => (inr (Z.of_nat (length (students (db w)))), w)).
Definition count_teachers (probe : option exn) : M Z :=
  answered probe (fun w => (inr (Z.of_nat (length (teachers (db w)))), w)).
Definition count_classes (probe : option exn) : M Z :=
  answered probe (fun w => (inr (Z.of_nat (length (classes (db w)))), w)).

Definition get_stats_body (ev : env) (probe : option exn) : M response :=
  total_students ← count_students probe;
  total_teachers ← count_teachers probe;
  total_classes ← count_classes probe;
  mret (JDict [
          ("total_students", JVal (PInt total_students));
          ("total_teachers", JVal (PInt total_teachers));
          ("total_classes", JVal (PInt total_classes));
          ("timestamp", JVal (isoformat (utcnow ev)))
        ], 200).

Definition get_stats (ev : env) (probe : option exn) : M response :=
  try_except (get_stats_body ev probe) report.

(** The routes that only read. *)
Inductive reading :=
| Index
| HealthCheck (probe : option exn)
| GetStats (probe : option exn)
| GetAllStudents
| GetStudent (student_id : Z)
| GetAllTeachers
| GetAllClasses.

Definition read_route (r : reading) (ev : env) (req : request) : M response :=
  match r with
  | Index => index
  | HealthCheck probe => health_check ev probe
  | GetStats probe => get_stats ev probe
  | GetAllStudents => get_all_students req
  | GetStudent pk => get_student pk
  | GetAllTeachers => get_all_teachers req
  | GetAllClasses => get_all_classes
  end.

(** ** What the columns of models.py promise about a table *)

(** Primary keys, codes and emails occur once; the NOT NULL columns hold
    a value. *)
Definition students_ok (rows : list Student.t) : Prop :=
  NoDup (Student.id <$> rows)
  ∧ NoDup (Student.student_id <$> rows)
  ∧ NoDup (Student.email <$> rows)
  ∧ Forall (fun r => Student.student_id r ≠ PNone
                     ∧ Student.first_name r ≠ PNone
                     ∧ Student.last_name r ≠ PNone
                     ∧ Student.email r ≠ PNone) rows.

Definition teachers_ok (rows : list Teacher.t) : Prop :=
  NoDup (Teacher.id <$> rows)
  ∧ NoDup (Teacher.teacher_id <$> rows)
  ∧ NoDup (Teacher.email <$> rows)
  ∧ Forall (fun r => Teacher.teacher_id r ≠ PNone
                     ∧ Teacher.first_name r ≠ PNone
                     ∧ Teacher.last_name r ≠ PNone
                     ∧ Teacher.email r ≠ PNone) rows.

Definition classes_ok (rows : list Class_.t) : Prop :=
  NoDup (Class_.id <$> rows)
  ∧ NoDup (Class_.class_name <$> rows)
  ∧ Forall (fun r => Class_.class_name r ≠ PNone
                     ∧ Class_.grade_level r ≠ PNone) rows.

Definition database_ok (d : database) : Prop :=
  students_ok (students d) ∧ teachers_ok (teachers d)
  ∧ classes_ok (classes d).

(** What a mutating route leaves of a request that started on tables [d]:
    an answer with nothing pending, which is a refusal with the tables as
    they were, the status of a success with one change committed, or a
    500 for an exception raised after the commit of one change. *)
Definition success_code (m : mutation) : Z :=
  match m with
  | CreateStudent | CreateTeacher | CreateClass => 201
  | UpdateStudent _ | DeleteStudent _ => 200
  end.

Definition committed (m : mutation) (ev : env) (d d' : database) : Prop :=
  commit_fault ev = None
  ∧ ∃ c, change_of_route m ev d c ∧ apply_change ev d c = inr d'.

Definition outcome (m : mutation) (ev : env) (d : database)
    (result : (exn + response) * world) : Prop :=
  ∃ body code d',
    result = (inr (body, code), fresh d')
    ∧ ((code ∈ [400; 404; 500] ∧ d' = d)
       ∨ (code = success_code m ∧ committed m ev d d')
       ∨ (code = 500 ∧ ∃ e, raised_after_commit m ev d e d')).

(** The body [get_stats] sends for given row counts. *)
Definition stats_json (n_students n_teachers n_classes : Z) (now : datetime)
  : json :=
  JDict [
    ("total_students", JVal (PInt n_students));
    ("total_teachers", JVal (PInt n_teachers));
    ("total_classes", JVal (PInt n_classes));
    ("timestamp", JVal (isoformat now))
  ].

(** By how much a mutating route that answered [code] changes the number
    of students, teachers and classes, unless the answer is a 500 for an
    exception raised after the commit. *)
Definition delta (m : mutation) (code : Z) : Z * Z * Z :=
  let b := if Z.eqb code (success_code m) then 1 else 0 in
  match m with
  | CreateStudent => (b, 0, 0)
  | UpdateStudent _ => (0, 0, 0)
  | DeleteStudent _ => (- b, 0, 0)
  | CreateTeacher => (0, b, 0)
  | CreateClass => (0, 0, b)
  end.

(** Payload values that a String column stores as they are. *)
Definition stored_as_given (d : gmap string pyval) : Prop :=
  ∀ key get v, (key, get) ∈ updatable → d !! key = Some v →
               text_affinity v = v.

(** * Properties *)

Ltac run :=
  unfold mbind, M_bind, mret, M_ret, raise, try_except in *; simpl in *.

Section lookups.
Context {A : Type} (key : A -> Z).

Lemma find_id_none (rows : list A) (pk : Z) :
  (∀ r, r ∈ rows → key r ≠ pk) →
  List.find (fun r => Z.eqb (key r) pk) rows = None.
Proof.
  induction rows as [|r rows IH]; intros H; simpl; [done|].
  destruct (Z.eqb_spec (key r) pk) as [E|E].
  - exfalso. apply (H r); [left | done].
  - apply IH. intros r' Hr'. apply H. by right.
Qed.

Lemma find_id_some (rows : list A) (pk : Z) (r : A) :
  List.find (fun r => Z.eqb (key r) pk) rows = Some r →
  r ∈ rows ∧ key r = pk.
Proof.
  intros H. apply List.find_some in H as [Hin Heq].
  split; [by apply list_elem_of_In | by apply Z.eqb_eq].
Qed.
End lookups.

Lemma bindable_range (n : Z) :
  bindable (PInt n) = true ↔ int64_min ≤ n ≤ int64_max.
Proof. unfold bindable. rewrite andb_true_iff, !Z.leb_le. tauto. Qed.

Lemma query_get_none (pk : Z) (w : world) :
  (∀ s, s ∈ students (db w) → Student.id s ≠ pk) →
  int64_min ≤ pk ≤ int64_max →
  query.get pk w = (inr None, w).
Proof.
  intros H Hpk. apply (find_id_none Student.id) in H.
  apply bindable_range in Hpk. unfold query.get. by rewrite H, Hpk.
Qed.

Lemma query_get_missing (pk : Z) (w : world) :
  List.find (fun r => Z.eqb (Student.id r) pk) (students (db w)) = None →
  query.get pk w
  = if bindable (PInt pk) then (inr None, w) else (inl OverflowError, w).
Proof. intros H. unfold query.get. by rewrite H. Qed.

Lemma query_get_some (pk : Z) (w : world) (s : Student.t) :
  List.find (fun r => Z.eqb (Student.id r) pk) (students (db w)) = Some s →
  query.get pk w = (inr (Some s), w).
Proof. intros H. unfold query.get. by rewrite H. Qed.

(** The lookup and the removal answer a missing id alike. *)
Lemma missing_student_is_404 ev pk w :
  (∀ s, s ∈ students (db w) → Student.id s ≠ pk) →
  int64_min ≤ pk ≤ int64_max →
  get_student pk w = (inr (error "Student not found", 404), w)
  ∧ delete_student ev pk w = (inr (error "Student not found", 404), w).
Proof.
  intros H Hpk. pose proof (query_get_none pk w H Hpk) as Hget.
  unfold get_student, delete_student, get_student_body,
    delete_student_body.
  run. by rewrite Hget.
Qed.


(** ** Validation of creation payloads *)

Lemma lookup_or_falsy (d : gmap string pyval) (required : list string) (k : string) :
  k ∈ required →
  truthy (lookup_or d k PNone) = false →
  forallb (fun k => truthy (lookup_or d k PNone)) required = false.
Proof.
  intros Hin Hk. apply not_true_is_false. intros Hall.
  rewrite forallb_forall in Hall. apply list_elem_of_In in Hin.
  specialize (Hall k Hin). congruence.
Qed.

Lemma create_student_rejects ev args d w :
  forallb (fun k => truthy (lookup_or d k PNone))
          ["first_name"; "last_name"; "email"] = false →
  create_student ev (mk_request args (inr (Obj d))) w
  = (inr (error "Missing required fields", 400), w).
Proof.
  unfold create_student, create_student_body, lookup_or. run.
  intros H.
  destruct (truthy match d !! "first_name" with Some v => v | None => PNone end);
    [|done].
  destruct (truthy match d !! "last_name" with Some v => v | None => PNone end);
    [|done].
  destruct (truthy match d !! "email" with Some v => v | None => PNone end);
    done.
Qed.

Lemma create_teacher_rejects ev args d w :
  forallb (fun k => truthy (lookup_or d k PNone))
          ["first_name"; "last_name"; "email"] = false →
  create_teacher ev (mk_request args (inr (Obj d))) w
  = (inr (error "Missing required fields", 400), w).
Proof.
  unfold create_teacher, create_teacher_body, lookup_or. run.
  intros H.
  destruct (truthy match d !! "first_name" with Some v => v | None => PNone end);
    [|done].
  destruct (truthy match d !! "last_name" with Some v => v | None => PNone end);
    [|done].
  destruct (truthy match d !! "email" with Some v => v | None => PNone end);
    done.
Qed.

Lemma create_class_rejects ev args d w :
  forallb (fun k => truthy (lookup_or d k PNone))
          ["class_name"; "grade_level"] = false →
  create_class ev (mk_request args (inr (Obj d))) w
  = (inr (error "Missing required fields", 400), w).
Proof.
  unfold create_class, create_class_body, lookup_or. run.
  intros H.
  destruct (truthy match d !! "class_name" with Some v => v | None => PNone end);
    [|done].
  destruct (truthy match d !! "grade_level" with Some v => v | None => PNone end);
    done.
Qed.

(** C2. A POST to the student, teacher or class creation endpoint whose
    payload lacks a required field is answered 400 'Missing required
    fields', and nothing is stored: tables and session are as before, so
    the record count of the entity is unchanged. *)
Theorem missing_required_field_400 (ev : env) (args : gmap string Z)
    (d : gmap string pyval) (w : world) :
  let req := mk_request args (inr (Obj d)) in
  (lacks ["first_name"; "last_name"; "email"] d →
     create_student ev req w = (inr (error "Missing required fields", 400), w)
     ∧ length (students (db (create_student ev req w).2))
       = length (students (db w))
     ∧ create_teacher ev req w
       = (inr (error "Missing required fields", 400), w)
     ∧ length (teachers (db (create_teacher ev req w).2))
       = length (teachers (db w)))
  ∧ (lacks ["class_name"; "grade_level"] d →
     create_class ev req w = (inr (error "Missing required fields", 400), w)
     ∧ length (classes (db (create_class ev req w).2))
       = length (classes (db w))).
Proof.
  intros req. split; intros (k & Hin & Hk).
  - assert (Hf : forallb (fun k => truthy (lookup_or d k PNone))
                   ["first_name"; "last_name"; "email"] = false).
    { apply (lookup_or_falsy d _ k Hin). unfold lookup_or. by rewrite Hk. }
    subst req.
    rewrite (create_student_rejects ev args d w Hf).
    rewrite (create_teacher_rejects ev args d w Hf). done.
  - assert (Hf : forallb (fun k => truthy (lookup_or d k PNone))
                   ["class_name"; "grade_level"] = false).
    { apply (lookup_or_falsy d _ k Hin). unfold lookup_or. by rewrite Hk. }
    subst req.
    rewrite (create_class_rejects ev args d w Hf). done.
Qed.

(** The three values the validation is said to refuse are falsy. *)
Lemma falsy_values :
  truthy (PStr "") = false ∧ truthy PNone = false
  ∧ truthy (PBool false) = false.
Proof. done. Qed.

(** C9. A required field that is present with a falsy value is refused
    like an absent one: 400 'Missing required fields', the same result as
    for the payload with the key removed. *)
Theorem falsy_required_field_400 (ev : env) (args : gmap string Z)
    (d : gmap string pyval) (w : world) (k : string) (v : pyval) :
  d !! k = Some v →
  truthy v = false →
  let req := mk_request args (inr (Obj d)) in
  let req_absent := mk_request args (inr (Obj (delete k d))) in
  (k ∈ ["first_name"; "last_name"; "email"] →
     create_student ev req w = (inr (error "Missing required fields", 400), w)
     ∧ create_student ev req_absent w = create_student ev req w
     ∧ create_teacher ev req w
       = (inr (error "Missing required fields", 400), w)
     ∧ create_teacher ev req_absent w = create_teacher ev req w)
  ∧ (k ∈ ["class_name"; "grade_level"] →
     create_class ev req w = (inr (error "Missing required fields", 400), w)
     ∧ create_class ev req_absent w = create_class ev req w).
Proof.
  intros Hk Hv req req_absent. split; intros Hin.
  - assert (Hf : forallb (fun k => truthy (lookup_or d k PNone))
                   ["first_name"; "last_name"; "email"] = false).
    { apply (lookup_or_falsy d _ k Hin). unfold lookup_or. by rewrite Hk. }
    assert (Hf' : forallb (fun k' => truthy (lookup_or (delete k d) k' PNone))
                   ["first_name"; "last_name"; "email"] = false).
    { apply (lookup_or_falsy _ _ k Hin). unfold lookup_or.
      by rewrite lookup_delete_eq. }
    subst req req_absent.
    rewrite (create_student_rejects ev args d w Hf).
    rewrite (create_teacher_rejects ev args d w Hf).
    rewrite (create_student_rejects ev args _ w Hf').
    rewrite (create_teacher_rejects ev args _ w Hf'). done.
  - assert (Hf : forallb (fun k => truthy (lookup_or d k PNone))
                   ["class_name"; "grade_level"] = false).
    { apply (lookup_or_falsy d _ k Hin). unfold lookup_or. by rewrite Hk. }
    assert (Hf' : forallb (fun k' => truthy (lookup_or (delete k d) k' PNone))
                   ["class_name"; "grade_level"] = false).
    { apply (lookup_or_falsy _ _ k Hin). unfold lookup_or.
      by rewrite lookup_delete_eq. }
    subst req req_absent.
    rewrite (create_class_rejects ev args d w Hf).
    rewrite (create_class_rejects ev args _ w Hf'). done.
Qed.

(** ** Listing classes *)

Lemma class_students_filter (all : list Student.t) (c : Class_.t) :
  Class_.students all c
  = filter (fun s => Student.class_id s = Some (Class_.id c)) all.
Proof.
  unfold Class_.students.
  induction all as [|s all IH]; [done|].
  simpl. rewrite filter_cons, IH.
  destruct (Student.class_id s) as [k|] eqn:E.
  - destruct (Z.eqb_spec k (Class_.id c)) as [->|Hne].
    + by rewrite decide_True.
    + rewrite decide_False; [done|]. congruence.
  - by rewrite decide_False.
Qed.

(** C7. GET /api/classes/ returns every stored class, unpaginated and in
    order; 'total' is the number of classes returned; the student_count of
    each serialized class is the number of stored students whose class_id
    is that class's id. *)
Theorem get_all_classes_full_list (w : world) :
  ∃ items,
    get_all_classes w
    = (inr (JDict [("classes", JList items);
                   ("total", JVal (PInt (Z.of_nat (length items))))], 200), w)
    ∧ length items = length (classes (db w))
    ∧ ∀ i c, classes (db w) !! i = Some c →
        ∃ item, items !! i = Some item
          ∧ json_field "id" item = Some (JVal (PInt (Class_.id c)))
          ∧ json_field "class_name" item = Some (JVal (Class_.class_name c))
          ∧ json_field "student_count" item
            = Some (JVal (PInt (Z.of_nat (length
                (filter (fun s => Student.class_id s = Some (Class_.id c))
                        (students (db w))))))).
Proof.
  exists (Class_.to_dict (students (db w)) <$> classes (db w)).
  split; [|split].
  - unfold get_all_classes, get_all_classes_body, query.all_classes,
      query.all_students. run. by rewrite length_fmap.
  - by rewrite length_fmap.
  - intros i c Hi. exists (Class_.to_dict (students (db w)) c).
    split; [by rewrite list_lookup_fmap, Hi|].
    rewrite <- class_students_filter. done.
Qed.

(** ** Pagination *)

Section paginate.
Context {A : Type}.
Implicit Types (rows : list A) (p s : Z) (w : world).

Lemma page_length rows p s :
  0 ≤ (p - 1) * s → 0 ≤ s →
  Z.of_nat (length (take (Z.to_nat s) (drop (Z.to_nat ((p - 1) * s)) rows)))
  = Z.min s (Z.max 0 (Z.of_nat (length rows) - (p - 1) * s)).
Proof.
  intros Hoff Hs. rewrite length_take, length_drop. lia.
Qed.

Lemma page_bindable_true p s :
  1 ≤ p → 0 ≤ s → page_bindable p s →
  bindable (PInt s) && bindable (PInt ((p - 1) * s)) = true.
Proof.
  intros Hp Hs [H1 H2]. assert (0 ≤ (p - 1) * s) by nia.
  rewrite andb_true_iff, !bindable_range. unfold int64_min. lia.
Qed.

Lemma page_bindable_false p s :
  1 ≤ p → 0 ≤ s → ¬ page_bindable p s →
  bindable (PInt s) && bindable (PInt ((p - 1) * s)) = false.
Proof.
  intros Hp Hs Hno. apply not_true_iff_false. intros H. apply Hno.
  rewrite andb_true_iff, !bindable_range in H. unfold page_bindable. lia.
Qed.

Lemma paginate_existing rows p s w :
  page_exists p s (Z.of_nat (length rows)) →
  page_bindable p s →
  query.paginate rows p s w
  = (inr (query.mk_pagination
            (take (Z.to_nat s) (drop (Z.to_nat ((p - 1) * s)) rows))
            (Z.of_nat (length rows)) p s), w).
Proof.
  intros (Hp & Hs & Hpage) Hbind. unfold query.paginate.
  destruct (Z.ltb_spec p 1); [lia|].
  destruct (Z.ltb_spec s 0); [lia|].
  rewrite (page_bindable_true p s Hp Hs Hbind). simpl.
  assert (0 ≤ (p - 1) * s) as Hoff by nia.
  pose proof (page_length rows p s Hoff Hs) as Hlen.
  destruct (Z.eqb_spec p 1) as [->|Hne].
  - by rewrite andb_false_r.
  - destruct Hpage as [?|[Hpos Hlt]]; [done|].
    destruct (Nat.eqb_spec
      (length (take (Z.to_nat s) (drop (Z.to_nat ((p - 1) * s)) rows))) 0)
      as [E|E]; [|done].
    rewrite E in Hlen. lia.
Qed.

Lemma paginate_missing rows p s w :
  ¬ page_exists p s (Z.of_nat (length rows)) →
  p < 1 ∨ s < 0 ∨ page_bindable p s →
  query.paginate rows p s w = (inl NotFound, w).
Proof.
  intros Hno Hbind. unfold query.paginate.
  destruct (Z.ltb_spec p 1); [done|].
  destruct (Z.ltb_spec s 0); [done|].
  destruct Hbind as [?|[?|Hbind]]; [lia|lia|].
  rewrite (page_bindable_true p s ltac:(lia) ltac:(lia) Hbind). simpl.
  assert (0 ≤ (p - 1) * s) as Hoff by nia.
  pose proof (page_length rows p s Hoff ltac:(lia)) as Hlen.
  destruct (Z.eqb_spec p 1) as [->|Hne].
  - exfalso. apply Hno. unfold page_exists. lia.
  - destruct (Nat.eqb_spec
      (length (take (Z.to_nat s) (drop (Z.to_nat ((p - 1) * s)) rows))) 0)
      as [E|E]; [done|].
    exfalso. apply Hno. unfold page_exists. lia.
Qed.

Lemma paginate_overflow rows p s w :
  1 ≤ p → 0 ≤ s → ¬ page_bindable p s →
  query.paginate rows p s w = (inl OverflowError, w).
Proof.
  intros Hp Hs Hno. unfold query.paginate.
  destruct (Z.ltb_spec p 1); [lia|].
  destruct (Z.ltb_spec s 0); [lia|].
  by rewrite (page_bindable_false p s Hp Hs Hno).
Qed.
End paginate.

(** Serializing rows that all have their date. *)
Lemma for_each_student (l : list Student.t) :
  Forall enrolled l →
  ∃ items, for_each Student.to_dict l = inr items
           ∧ length items = length l.
Proof.
  induction 1 as [|r l [d Hd] _ (items & IH & Hlen)]; [by exists []|].
  eexists. simpl. unfold Student.to_dict at 1. rewrite Hd, IH.
  split; [reflexivity|]. simpl. by rewrite Hlen.
Qed.


(** C1, as the code has it. With p the page number and s the page size of
    a GET /api/students/ (defaults 1 and 10) over n stored students: when
    page p exists, its size and offset are within 64 bits and the students
    on it have an enrollment date, the answer is 200, its list serializes
    the p-th slice of the table and holds min(s, n - (p-1)s) entries, so
    at most s and fewer on a short last page, and 'total' is n.  A page
    that does not exist, in particular one past the last page, is answered
    500 with the text of the not-found error that [paginate] raises; a
    size or offset beyond 64 bits is answered 500 with the overflow
    error. *)
Theorem get_all_students_pages (req : request) (w : world) :
  let p := args_get req "page" 1 in
  let s := args_get req "per_page" 10 in
  let n := Z.of_nat (length (students (db w))) in
  let slice :=
    take (Z.to_nat s) (drop (Z.to_nat ((p - 1) * s)) (students (db w))) in
  (page_exists p s n → page_bindable p s → Forall enrolled slice →
     ∃ items pages,
       get_all_students req w
       = (inr (JDict [("students", JList items);
                      ("total", JVal (PInt n));
                      ("pages", JVal (PInt pages));
                      ("current_page", JVal (PInt p))], 200), w)
       ∧ for_each Student.to_dict slice = inr items
       ∧ Z.of_nat (length items) = Z.min s (Z.max 0 (n - (p - 1) * s))
       ∧ Z.of_nat (length items) ≤ s)
  ∧ (¬ page_exists p s n → p < 1 ∨ s < 0 ∨ page_bindable p s →
       get_all_students req w = (inr (error (str NotFound), 500), w))
  ∧ (1 ≤ p → 0 ≤ s → ¬ page_bindable p s →
       get_all_students req w = (inr (error (str OverflowError), 500), w)).
Proof.
  intros p s n slice. split; [|split].
  - intros H Hbind Hdates.
    destruct (for_each_student slice Hdates) as (items & Hitems & Hlen).
    exists items. eexists. split; [|split; [exact Hitems|]].
    + unfold get_all_students, get_all_students_body, query.all_students,
        lift.
      run. fold p s. rewrite (paginate_existing _ p s w H Hbind).
      simpl. fold slice. rewrite Hitems. reflexivity.
    + destruct H as (Hp & Hs & _).
      assert (0 ≤ (p - 1) * s) as Hoff by nia.
      rewrite Hlen. unfold slice.
      rewrite (page_length _ p s Hoff Hs). fold n. lia.
  - intros H Hbind.
    unfold get_all_students, get_all_students_body, query.all_students.
    run. fold p s. by rewrite (paginate_missing _ p s w H Hbind).
  - intros Hp Hs Hno.
    unfold get_all_students, get_all_students_body, query.all_students.
    run. fold p s. by rewrite (paginate_overflow _ p s w Hp Hs Hno).
Qed.


(** ** How the mutating try blocks run *)

Lemma has_required_forallb required d :
  has_required required d →
  forallb (fun k => truthy (lookup_or d k PNone)) required = true.
Proof.
  intros H. apply forallb_forall. intros k Hk.
  apply H. by apply list_elem_of_In.
Qed.

Lemma forallb_has_required required d :
  forallb (fun k => truthy (lookup_or d k PNone)) required = true →
  has_required required d.
Proof.
  intros H k Hk. rewrite forallb_forall in H.
  apply H. by apply list_elem_of_In.
Qed.

Lemma create_student_body_run ev args dct d :
  has_required ["first_name"; "last_name"; "email"] dct →
  create_student_body ev (mk_request args (inr (Obj dct))) (fresh d)
  = match insert_student ev (requested_student ev dct) (students d) with
    | inl e => (inl e, mk_world d [NewStudent (requested_student ev dct)])
    | inr rows =>
        match commit_fault ev with
        | Some e =>
            (inl e, mk_world d [NewStudent (requested_student ev dct)])
        | None =>
            let d' := mk_database rows (teachers d) (classes d) in
            match reload_fault ev with
            | Some e => (inl e, fresh d')
            | None =>
                match Student.to_dict
                        (List.last rows
                           (Student.inserted 0 ""
                              (requested_student ev dct))) with
                | inl e => (inl e, fresh d')
                | inr body => (inr (body, 201), fresh d')
                end
            end
        end
    end.
Proof.
  intros H.
  pose proof (H "first_name" ltac:(repeat constructor)) as H1.
  pose proof (H "last_name" ltac:(repeat constructor)) as H2.
  pose proof (H "email" ltac:(repeat constructor)) as H3.
  unfold lookup_or in H1, H2, H3.
  unfold create_student_body, get_json, dict_get, session_.add,
    session_.commit, new_student, reload, lift. run.
  rewrite H1, H2, H3. simpl.
  fold (lookup_or dct "first_name" PNone) (lookup_or dct "last_name" PNone)
    (lookup_or dct "email" PNone) (lookup_or dct "phone" PNone)
    (lookup_or dct "student_id" (PStr ("STU-" +:+ now_timestamp ev))).
  fold (requested_student ev dct).
  destruct (insert_student ev (requested_student ev dct) (students d));
    simpl; [done|].
  destruct (commit_fault ev); [done|].
  destruct (reload_fault ev); [done|]. simpl.
  by destruct (Student.to_dict _).
Qed.

Lemma create_teacher_body_run ev args dct d :
  has_required ["first_name"; "last_name"; "email"] dct →
  create_teacher_body ev (mk_request args (inr (Obj dct))) (fresh d)
  = match insert_teacher ev (requested_teacher ev dct) (teachers d) with
    | inl e => (inl e, mk_world d [NewTeacher (requested_teacher ev dct)])
    | inr rows =>
        match commit_fault ev with
        | Some e =>
            (inl e, mk_world d [NewTeacher (requested_teacher ev dct)])
        | None =>
            let d' := mk_database (students d) rows (classes d) in
            match reload_fault ev with
            | Some e => (inl e, fresh d')
            | None =>
                match Teacher.to_dict
                        (List.last rows
                           (Teacher.inserted 0 ""
                              (requested_teacher ev dct))) with
                | inl e => (inl e, fresh d')
                | inr body => (inr (body, 201), fresh d')
                end
            end
        end
    end.
Proof.
  intros H.
  pose proof (H "first_name" ltac:(repeat constructor)) as H1.
  pose proof (H "last_name" ltac:(repeat constructor)) as H2.
  pose proof (H "email" ltac:(repeat constructor)) as H3.
  unfold lookup_or in H1, H2, H3.
  unfold create_teacher_body, get_json, dict_get, session_.add,
    session_.commit, new_teacher, reload, lift. run.
  rewrite H1, H2, H3. simpl.
  fold (lookup_or dct "first_name" PNone) (lookup_or dct "last_name" PNone)
    (lookup_or dct "email" PNone) (lookup_or dct "phone" PNone)
    (lookup_or dct "specialization" PNone)
    (lookup_or dct "teacher_id" (PStr ("TCH-" +:+ now_timestamp ev))).
  fold (requested_teacher ev dct).
  destruct (insert_teacher ev (requested_teacher ev dct) (teachers d));
    simpl; [done|].
  destruct (commit_fault ev); [done|].
  destruct (reload_fault ev); [done|]. simpl.
  by destruct (Teacher.to_dict _).
Qed.

Lemma create_class_body_run ev args dct d :
  has_required ["class_name"; "grade_level"] dct →
  create_class_body ev (mk_request args (inr (Obj dct))) (fresh d)
  = match insert_class ev (requested_class dct) (classes d) with
    | inl e => (inl e, mk_world d [NewClass (requested_class dct)])
    | inr rows =>
        match commit_fault ev with
        | Some e => (inl e, mk_world d [NewClass (requested_class dct)])
        | None =>
            let d' := mk_database (students d) (teachers d) rows in
            match reload_fault ev with
            | Some e => (inl e, fresh d')
            | None =>
                (inr (Class_.to_dict (students d)
                        (List.last rows
                           (Class_.inserted 0 "" (requested_class dct))),
                      201), fresh d')
            end
        end
    end.
Proof.
  intros H.
  pose proof (H "class_name" ltac:(repeat constructor)) as H1.
  pose proof (H "grade_level" ltac:(repeat constructor)) as H2.
  unfold lookup_or in H1, H2.
  unfold create_class_body, get_json, dict_get, session_.add,
    session_.commit, new_class, reload, query.all_students. run.
  rewrite H1, H2. simpl.
  fold (lookup_or dct "class_name" PNone) (lookup_or dct "grade_level" PNone)
    (lookup_or dct "teacher_id" PNone) (lookup_or dct "room_number" PNone)
    (lookup_or dct "max_capacity" (PInt 40)).
  fold (requested_class dct).
  destruct (insert_class ev (requested_class dct) (classes d));
    simpl; [done|].
  destruct (commit_fault ev); [done|].
  by destruct (reload_fault ev).
Qed.

Lemma update_student_body_run ev args dct d pk s :
  List.find (fun r => Z.eqb (Student.id r) pk) (students d) = Some s →
  update_student_body ev (mk_request args (inr (Obj dct))) pk (fresh d)
  = match update_student_row ev (overwritten dct s) (students d) with
    | inl e => (inl e, mk_world d [DirtyStudent (overwritten dct s)])
    | inr rows =>
        match commit_fault ev with
        | Some e => (inl e, mk_world d [DirtyStudent (overwritten dct s)])
        | None =>
            let d' := mk_database rows (teachers d) (classes d) in
            match reload_fault ev with
            | Some e => (inl e, fresh d')
            | None =>
                match Student.to_dict
                        (match List.find
                                 (fun r => Z.eqb (Student.id r)
                                                 (Student.id s))
                                 rows with
                         | Some r => r
                         | None => overwritten dct s
                         end) with
                | inl e => (inl e, fresh d')
                | inr body => (inr (body, 200), fresh d')
                end
            end
        end
    end.
Proof.
  intros Hfind.
  unfold update_student_body, get_json, dict_get,
    session_.assign, session_.commit, reloaded, reload, lift. run.
  rewrite (query_get_some pk (fresh d) s Hfind). simpl.
  repeat (rewrite Z.eqb_refl; simpl).
  unfold Student.set_status, Student.set_phone, Student.set_email,
    Student.set_last_name, Student.set_first_name. simpl.
  fold (lookup_or dct "first_name" (Student.first_name s)).
  fold (lookup_or dct "last_name" (Student.last_name s)).
  fold (lookup_or dct "email" (Student.email s)).
  fold (lookup_or dct "phone" (Student.phone s)).
  fold (lookup_or dct "status" (Student.status s)).
  fold (overwritten dct s).
  destruct (update_student_row ev (overwritten dct s) (students d));
    simpl; [done|].
  destruct (commit_fault ev); [done|].
  destruct (reload_fault ev); [done|]. simpl.
  by destruct (Student.to_dict _).
Qed.

Lemma delete_student_body_run ev d pk s :
  List.find (fun r => Z.eqb (Student.id r) pk) (students d) = Some s →
  delete_student_body ev pk (fresh d)
  = match commit_fault ev with
    | Some e => (inl e, mk_world d [DeletedStudent s])
    | None =>
        (inr (message "Student deleted successfully", 200),
         fresh (mk_database (delete_student_row s (students d))
                            (teachers d) (classes d)))
    end.
Proof.
  intros Hfind.
  unfold delete_student_body, session_.delete, session_.add,
    session_.commit. run.
  rewrite (query_get_some pk (fresh d) s Hfind). simpl.
  by destruct (commit_fault ev).
Qed.

Lemma create_student_body_rejects ev args d w :
  forallb (fun k => truthy (lookup_or d k PNone))
          ["first_name"; "last_name"; "email"] = false →
  create_student_body ev (mk_request args (inr (Obj d))) w
  = (inr (error "Missing required fields", 400), w).
Proof.
  unfold create_student_body, lookup_or. run.
  intros H.
  destruct (truthy match d !! "first_name" with Some v => v | None => PNone end);
    [|done].
  destruct (truthy match d !! "last_name" with Some v => v | None => PNone end);
    [|done].
  destruct (truthy match d !! "email" with Some v => v | None => PNone end);
    done.
Qed.

Lemma create_teacher_body_rejects ev args d w :
  forallb (fun k => truthy (lookup_or d k PNone))
          ["first_name"; "last_name"; "email"] = false →
  create_teacher_body ev (mk_request args (inr (Obj d))) w
  = (inr (error "Missing required fields", 400), w).
Proof.
  unfold create_teacher_body, lookup_or. run.
  intros H.
  destruct (truthy match d !! "first_name" with Some v => v | None => PNone end);
    [|done].
  destruct (truthy match d !! "last_name" with Some v => v | None => PNone end);
    [|done].
  destruct (truthy match d !! "email" with Some v => v | None => PNone end);
    done.
Qed.

Lemma create_class_body_rejects ev args d w :
  forallb (fun k => truthy (lookup_or d k PNone))
          ["class_name"; "grade_level"] = false →
  create_class_body ev (mk_request args (inr (Obj d))) w
  = (inr (error "Missing required fields", 400), w).
Proof.
  unfold create_class_body, lookup_or. run.
  intros H.
  destruct (truthy match d !! "class_name" with Some v => v | None => PNone end);
    [|done].
  destruct (truthy match d !! "grade_level" with Some v => v | None => PNone end);
    done.
Qed.

(** ** What the store returns *)

Lemma database_eta d :
  mk_database (students d) (teachers d) (classes d) = d.
Proof. by destruct d. Qed.

Lemma insert_student_appends ev o rows rows' :
  insert_student ev o rows = inr rows' →
  rows' = rows ++ [Student.inserted (next_id (Student.id <$> rows))
                     (utcnow ev) o].
Proof.
  unfold insert_student. destruct (negb _); [done|]. cbv zeta.
  match goal with
  | |- context [first_violation ?l] => destruct (first_violation l)
  end; [done|]. by intros [= <-].
Qed.

Lemma insert_teacher_appends ev o rows rows' :
  insert_teacher ev o rows = inr rows' →
  rows' = rows ++ [Teacher.inserted (next_id (Teacher.id <$> rows))
                     (utcnow ev) o].
Proof.
  unfold insert_teacher. destruct (negb _); [done|]. cbv zeta.
  match goal with
  | |- context [first_violation ?l] => destruct (first_violation l)
  end; [done|]. by intros [= <-].
Qed.

Lemma insert_class_appends ev o rows rows' :
  insert_class ev o rows = inr rows' →
  rows' = rows ++ [Class_.inserted (next_id (Class_.id <$> rows))
                     (utcnow ev) o].
Proof.
  unfold insert_class. destruct (negb _); [done|]. cbv zeta.
  match goal with
  | |- context [first_violation ?l] => destruct (first_violation l)
  end; [done|]. by intros [= <-].
Qed.

Lemma update_student_row_result ev dct s rows rows' :
  List.find (fun r => Z.eqb (Student.id r) (Student.id s)) rows = Some s →
  update_student_row ev (overwritten dct s) rows = inr rows' →
  rows' = if decide (s = overwritten dct s) then rows
          else replace_student (row_after ev s (overwritten dct s)) rows.
Proof.
  intros Hfind. unfold update_student_row, row_after.
  change (Student.id (overwritten dct s)) with (Student.id s).
  rewrite Hfind. destruct (decide _); [by intros [= <-]|].
  destruct (negb _); [done|]. cbv zeta.
  match goal with
  | |- context [first_violation ?l] => destruct (first_violation l)
  end; [done|]. by intros [= <-].
Qed.

Lemma find_replace_student (rows : list Student.t) (old new : Student.t) :
  List.find (fun r => Z.eqb (Student.id r) (Student.id new)) rows = Some old →
  List.find (fun r => Z.eqb (Student.id r) (Student.id new))
            (replace_student new rows) = Some new.
Proof.
  induction rows as [|r rows IH]; simpl; [done|].
  destruct (Z.eqb_spec (Student.id r) (Student.id new)) as [E|E].
  - intros _. by rewrite Z.eqb_refl.
  - intros H. destruct (Z.eqb_spec (Student.id r) (Student.id new)); [done|].
    by apply IH.
Qed.

Lemma row_after_id ev s s' :
  Student.id s' = Student.id s → Student.id (row_after ev s s') = Student.id s.
Proof. intros H. unfold row_after. by destruct (decide _). Qed.

Lemma row_after_enrollment ev s s' :
  Student.enrollment_date (row_after ev s s') = Student.enrollment_date s.
Proof. unfold row_after. by destruct (decide _). Qed.

(** The row a lookup by the same key finds after an accepted UPDATE. *)
Lemma find_after_update ev dct s rows rows' :
  List.find (fun r => Z.eqb (Student.id r) (Student.id s)) rows = Some s →
  update_student_row ev (overwritten dct s) rows = inr rows' →
  List.find (fun r => Z.eqb (Student.id r) (Student.id s)) rows'
  = Some (row_after ev s (overwritten dct s)).
Proof.
  intros Hfind Hrow.
  rewrite (update_student_row_result _ _ _ _ _ Hfind Hrow).
  unfold row_after. destruct (decide (s = overwritten dct s)); [done|].
  apply (find_replace_student rows s
           (Student.updated (utcnow ev) s (overwritten dct s))).
  exact Hfind.
Qed.

Lemma to_dict_enrolled (r : Student.t) :
  enrolled r → ∃ body, Student.to_dict r = inr body.
Proof. intros [d Hd]. unfold Student.to_dict. rewrite Hd. by eexists. Qed.

Lemma to_dict_raises (r : Student.t) (e : exn) :
  Student.to_dict r = inl e → Student.enrollment_date r = None.
Proof. unfold Student.to_dict. by destruct (Student.enrollment_date r). Qed.

(** ** Exceptions and rollback *)

Lemma create_student_raises ev req d e w' :
  create_student_body ev req (fresh d) = (inl e, w') →
  db w' = d ∨ raised_after_commit CreateStudent ev d e (db w').
Proof.
  destruct req as [args [e0|[dct|t]]]; [by intros [= _ <-]; left| |
                                          by intros [= _ <-]; left].
  destruct (forallb (fun k => truthy (lookup_or dct k PNone))
              ["first_name"; "last_name"; "email"]) eqn:Hreq.
  - apply forallb_has_required in Hreq.
    rewrite (create_student_body_run ev args dct d Hreq).
    destruct (insert_student _ _ _) as [e1|rows] eqn:Hins;
      [by intros [= _ <-]; left|].
    destruct (commit_fault ev) eqn:Hfault; [by intros [= _ <-]; left|].
    cbv zeta. destruct (reload_fault ev) eqn:Hreload.
    + intros [= <- <-]. right. split; [done|]. split; [|by left].
      exists (NewStudent (requested_student ev dct)).
      split; [by exists dct|]. simpl. by rewrite Hins.
    + rewrite (insert_student_appends _ _ _ _ Hins), last_last. done.
  - by rewrite (create_student_body_rejects ev args dct (fresh d) Hreq).
Qed.

Lemma create_teacher_raises ev req d e w' :
  create_teacher_body ev req (fresh d) = (inl e, w') →
  db w' = d ∨ raised_after_commit CreateTeacher ev d e (db w').
Proof.
  destruct req as [args [e0|[dct|t]]]; [by intros [= _ <-]; left| |
                                          by intros [= _ <-]; left].
  destruct (forallb (fun k => truthy (lookup_or dct k PNone))
              ["first_name"; "last_name"; "email"]) eqn:Hreq.
  - apply forallb_has_required in Hreq.
    rewrite (create_teacher_body_run ev args dct d Hreq).
    destruct (insert_teacher _ _ _) as [e1|rows] eqn:Hins;
      [by intros [= _ <-]; left|].
    destruct (commit_fault ev) eqn:Hfault; [by intros [= _ <-]; left|].
    cbv zeta. destruct (reload_fault ev) eqn:Hreload.
    + intros [= <- <-]. right. split; [done|]. split; [|by left].
      exists (NewTeacher (requested_teacher ev dct)).
      split; [by exists dct|]. simpl. by rewrite Hins.
    + rewrite (insert_teacher_appends _ _ _ _ Hins), last_last. done.
  - by rewrite (create_teacher_body_rejects ev args dct (fresh d) Hreq).
Qed.

Lemma create_class_raises ev req d e w' :
  create_class_body ev req (fresh d) = (inl e, w') →
  db w' = d ∨ raised_after_commit CreateClass ev d e (db w').
Proof.
  destruct req as [args [e0|[dct|t]]]; [by intros [= _ <-]; left| |
                                          by intros [= _ <-]; left].
  destruct (forallb (fun k => truthy (lookup_or dct k PNone))
              ["class_name"; "grade_level"]) eqn:Hreq.
  - apply forallb_has_required in Hreq.
    rewrite (create_class_body_run ev args dct d Hreq).
    destruct (insert_class _ _ _) as [e1|rows] eqn:Hins;
      [by intros [= _ <-]; left|].
    destruct (commit_fault ev) eqn:Hfault; [by intros [= _ <-]; left|].
    cbv zeta. destruct (reload_fault ev) eqn:Hreload; [|done].
    intros [= <- <-]. right. split; [done|]. split; [|by left].
    exists (NewClass (requested_class dct)).
    split; [by exists dct|]. simpl. by rewrite Hins.
  - by rewrite (create_class_body_rejects ev args dct (fresh d) Hreq).
Qed.

Lemma update_student_raises ev req pk d e w' :
  update_student_body ev req pk (fresh d) = (inl e, w') →
  db w' = d ∨ raised_after_commit (UpdateStudent pk) ev d e (db w').
Proof.
  destruct (List.find (fun r => Z.eqb (Student.id r) pk) (students d))
    as [s|] eqn:Hfind.
  - destruct (find_id_some Student.id _ _ _ Hfind) as [_ Hpk].
    assert (Hfind' : List.find
              (fun r => Z.eqb (Student.id r) (Student.id s)) (students d)
            = Some s) by (by rewrite Hpk).
    destruct req as [args [e0|[dct|t]]].
    + unfold update_student_body, get_json. run.
      rewrite (query_get_some pk (fresh d) s Hfind). simpl.
      intros [= _ <-]. by left.
    + rewrite (update_student_body_run ev args dct d pk s Hfind).
      destruct (update_student_row _ _ _) as [e1|rows] eqn:Hrow;
        [by intros [= _ <-]; left|].
      destruct (commit_fault ev) eqn:Hfault; [by intros [= _ <-]; left|].
      cbv zeta.
      assert (Hc : ∃ c, change_of_route (UpdateStudent pk) ev d c
                        ∧ apply_change ev d c
                          = inr (mk_database rows (teachers d) (classes d))).
      { exists (DirtyStudent (overwritten dct s)).
        split; [by exists s, dct|]. simpl. by rewrite Hrow. }
      destruct (reload_fault ev) eqn:Hreload.
      * intros [= <- <-]. right. split; [done|]. split; [done|]. by left.
      * rewrite (find_after_update _ _ _ _ _ Hfind' Hrow).
        destruct (Student.to_dict _) as [e1|body] eqn:Hdict; [|done].
        intros [= <- <-]. right. split; [done|]. split; [done|]. right.
        exists pk, s. split; [done|]. split; [done|].
        apply to_dict_raises in Hdict.
        by rewrite row_after_enrollment in Hdict.
    + unfold update_student_body, get_json, dict_get. run.
      rewrite (query_get_some pk (fresh d) s Hfind). simpl.
      intros [= _ <-]. by left.
  - unfold update_student_body. run.
    rewrite (query_get_missing pk (fresh d) Hfind).
    destruct (bindable (PInt pk)); simpl; intros H; simplify_eq. by left.
Qed.

Lemma delete_student_raises ev pk d e w' :
  delete_student_body ev pk (fresh d) = (inl e, w') → db w' = d.
Proof.
  destruct (List.find (fun r => Z.eqb (Student.id r) pk) (students d))
    as [s|] eqn:Hfind.
  - rewrite (delete_student_body_run ev d pk s Hfind).
    destruct (commit_fault ev); [|done]. by intros [= _ <-].
  - unfold delete_student_body. run.
    rewrite (query_get_missing pk (fresh d) Hfind).
    destruct (bindable (PInt pk)); simpl; intros H; by simplify_eq.
Qed.

Lemma try_block_raises m ev req d e w' :
  try_block m ev req (fresh d) = (inl e, w') →
  db w' = d ∨ raised_after_commit m ev d e (db w').
Proof.
  destruct m; simpl.
  - apply create_student_raises.
  - apply update_student_raises.
  - intros H. left. by eapply delete_student_raises.
  - apply create_teacher_raises.
  - apply create_class_raises.
Qed.

Lemma route_is_guarded_try_block m ev req :
  route m ev req = try_except (try_block m ev req) rollback_and_report.
Proof. by destruct m. Qed.

(** C5, as the code has it. Whatever exception the [try] block of a
    mutating route raises (student create, update, delete; teacher create;
    class create), the route answers 500 with [str(e)] as the error
    detail, and its rollback leaves the session with nothing pending.  The
    tables are those from before the request, unless the exception was
    raised after the commit had succeeded, by the reload of the committed
    row or by [to_dict] on an updated student without enrollment_date:
    then they are the committed ones. *)
Theorem mutating_route_rolls_back (m : mutation) (ev : env) (req : request)
    (d : database) (e : exn) (w' : world) :
  try_block m ev req (fresh d) = (inl e, w') →
  route m ev req (fresh d) = (inr (error (str e), 500), fresh (db w'))
  ∧ (db w' = d ∨ raised_after_commit m ev d e (db w'))
  ∧ (reload_fault ev = None →
     (∀ pk s, m = UpdateStudent pk →
        List.find (fun r => Z.eqb (Student.id r) pk) (students d) = Some s →
        enrolled s) →
     db w' = d).
Proof.
  intros H. pose proof (try_block_raises _ _ _ _ _ _ H) as Hdb.
  split; [|split; [exact Hdb|]].
  - rewrite route_is_guarded_try_block.
    unfold try_except, rollback_and_report, session_.rollback. rewrite H.
    run. done.
  - intros Hreload Hdates.
    destruct Hdb as [?|(_ & _ & [Hr|(pk & s & -> & Hfind & Hnone)])];
      [done|congruence|].
    destruct (Hdates pk s eq_refl Hfind) as [x Hx]. congruence.
Qed.

(** ** Updating a student *)

Ltac listed := unfold updatable; repeat constructor.

Lemma text_affinity_none (v : pyval) : text_affinity v = PNone ↔ v = PNone.
Proof. by destruct v. Qed.

Lemma store_column_same (v : pyval) : Student.store_column v v = v.
Proof. unfold Student.store_column. by rewrite decide_True. Qed.

Lemma when_changed_not_null col old new :
  new = old ∨ new ≠ PNone →
  when_changed old new (not_null col (Student.store_column old new)) = None.
Proof.
  intros H. unfold when_changed, not_null, Student.store_column.
  destruct (decide (old = new)) as [|Hne]; [done|].
  destruct H as [->|H]; [done|].
  rewrite decide_False; [done|]. by rewrite text_affinity_none.
Qed.

Lemma when_changed_unique col old new others :
  new = old ∨ text_affinity new ∉ others →
  when_changed old new (unique col (Student.store_column old new) others)
  = None.
Proof.
  intros H. unfold when_changed, unique, Student.store_column.
  destruct (decide (old = new)) as [|Hne]; [done|].
  destruct H as [->|H]; [done|]. by rewrite decide_False.
Qed.

Lemma binds_true old new :
  new = old ∨ bindable new = true → Student.binds old new = true.
Proof.
  unfold Student.binds. intros [-> | ->]; [|by rewrite orb_true_r].
  by rewrite bool_decide_true.
Qed.

Lemma other_students_elem (s r : Student.t) (rows : list Student.t) :
  r ∈ other_students s rows → r ∈ rows ∧ Student.id r ≠ Student.id s.
Proof.
  unfold other_students. rewrite list_elem_of_In, filter_In.
  intros [Hin Hne]. split; [by apply list_elem_of_In|].
  intros E. rewrite E, Z.eqb_refl in Hne. done.
Qed.

Lemma update_student_row_accepts ev dct s rows :
  List.find (fun r => Z.eqb (Student.id r) (Student.id s)) rows = Some s →
  store_accepts_update s dct rows →
  update_student_row ev (overwritten dct s) rows
  = inr (if decide (s = overwritten dct s) then rows
         else replace_student (row_after ev s (overwritten dct s)) rows).
Proof.
  intros Hfind (Hbind & Hfn & Hln & Hem).
  unfold update_student_row, row_after.
  change (Student.id (overwritten dct s)) with (Student.id s).
  rewrite Hfind.
  destruct (decide (s = overwritten dct s)) as [|Hne]; [done|].
  assert (Hb : Student.update_binds s (overwritten dct s) = true).
  { unfold Student.update_binds. simpl.
    rewrite !andb_true_iff. repeat split; apply binds_true.
    - apply (Hbind "first_name" Student.first_name). listed.
    - apply (Hbind "last_name" Student.last_name). listed.
    - apply (Hbind "email" Student.email). listed.
    - apply (Hbind "phone" Student.phone). listed.
    - apply (Hbind "status" Student.status). listed. }
  rewrite Hb. cbv zeta. simpl.
  rewrite (when_changed_not_null _ _ _ Hfn).
  rewrite (when_changed_not_null _ _ _ Hln).
  rewrite when_changed_not_null by tauto.
  rewrite when_changed_unique; [done|].
  destruct Hem as [?|[_ Hem]]; [by left|right].
  intros (r & Hr & Hin)%list_elem_of_fmap.
  apply other_students_elem in Hin as [Hin Hid]. simpl in Hid.
  by apply (Hem r Hin Hid).
Qed.

Lemma updatable_overwritten dct s key get :
  (key, get) ∈ updatable → get (overwritten dct s) = lookup_or dct key (get s).
Proof.
  unfold updatable. rewrite !elem_of_cons, elem_of_nil.
  intros [E|[E|[E|[E|[E|[]]]]]]; by simplify_eq.
Qed.

(** What the row after an UPDATE holds in an updatable column. *)
Lemma row_after_field ev dct s key get :
  (key, get) ∈ updatable →
  get (row_after ev s (overwritten dct s))
  = Student.store_column (get s) (lookup_or dct key (get s)).
Proof.
  intros Hin. unfold row_after.
  destruct (decide (s = overwritten dct s)) as [E|_].
  - rewrite <- (updatable_overwritten dct s key get Hin), <- E.
    by rewrite store_column_same.
  - revert Hin. unfold updatable. rewrite !elem_of_cons, elem_of_nil.
    intros [?|[?|[?|[?|[?|[]]]]]]; by simplify_eq.
Qed.


(** What an accepted PUT stores and returns. *)
Lemma update_student_accepted ev args dct d pk s :
  List.find (fun r => Z.eqb (Student.id r) pk) (students d) = Some s →
  enrolled s →
  commit_fault ev = None →
  reload_fault ev = None →
  store_accepts_update s dct (students d) →
  let stored := row_after ev s (overwritten dct s) in
  let d' :=
    if decide (s = overwritten dct s) then d
    else mk_database (replace_student stored (students d))
                     (teachers d) (classes d) in
  ∃ body,
    update_student ev (mk_request args (inr (Obj dct))) pk (fresh d)
    = (inr (body, 200), fresh d')
    ∧ Student.to_dict stored = inr body
    ∧ List.find (fun r => Z.eqb (Student.id r) pk) (students d')
      = Some stored.
Proof.
  intros Hfind Hdate Hfault Hreload Hacc stored d'.
  destruct (find_id_some Student.id _ _ _ Hfind) as [_ Hpk].
  assert (Hfind' : List.find
            (fun r => Z.eqb (Student.id r) (Student.id s)) (students d)
          = Some s) by (by rewrite Hpk).
  assert (Hrow := update_student_row_accepts ev dct s _ Hfind' Hacc).
  assert (Hafter := find_after_update ev dct s _ _ Hfind' Hrow).
  destruct (to_dict_enrolled stored) as [body Hbody].
  { unfold enrolled, stored. by rewrite row_after_enrollment. }
  exists body. unfold update_student, try_except.
  rewrite (update_student_body_run ev args dct d pk s Hfind).
  rewrite Hrow, Hfault. cbv zeta. rewrite Hreload, Hafter.
  fold stored. rewrite Hbody. subst d'.
  destruct (decide (s = overwritten dct s)) as [E|E].
  - split; [by rewrite database_eta|]. split; [done|].
    rewrite <- Hpk. exact Hafter.
  - split; [done|]. split; [done|].
    rewrite <- Hpk. exact Hafter.
Qed.




(** ** Creating students and teachers *)

Lemma truthy_not_none (v : pyval) : truthy v = true → v ≠ PNone.
Proof. by destruct v. Qed.

Lemma not_null_text col (v : pyval) :
  v ≠ PNone → not_null col (text_affinity v) = None.
Proof.
  intros H. unfold not_null. rewrite decide_False; [done|].
  by rewrite text_affinity_none.
Qed.

Lemma unique_free col (v : pyval) (present : list pyval) :
  v ∉ present → unique col v present = None.
Proof. intros H. unfold unique. by rewrite decide_False. Qed.

Lemma insert_student_accepts ev o rows :
  forallb bindable (Student.bound o) = true →
  Student.init_student_id o ≠ PNone →
  Student.init_first_name o ≠ PNone →
  Student.init_last_name o ≠ PNone →
  Student.init_email o ≠ PNone →
  text_affinity (Student.init_email o) ∉ Student.email <$> rows →
  text_affinity (Student.init_student_id o) ∉ Student.student_id <$> rows →
  insert_student ev o rows
  = inr (rows ++ [Student.inserted (next_id (Student.id <$> rows))
                    (utcnow ev) o]).
Proof.
  intros Hb Hcode Hfn Hln Hem Hfree Hfree'.
  unfold insert_student. rewrite Hb. cbv zeta. simpl.
  by rewrite !not_null_text, !unique_free.
Qed.

Lemma insert_teacher_accepts ev o rows :
  forallb bindable (Teacher.bound o) = true →
  Teacher.init_teacher_id o ≠ PNone →
  Teacher.init_first_name o ≠ PNone →
  Teacher.init_last_name o ≠ PNone →
  Teacher.init_email o ≠ PNone →
  text_affinity (Teacher.init_email o) ∉ Teacher.email <$> rows →
  text_affinity (Teacher.init_teacher_id o) ∉ Teacher.teacher_id <$> rows →
  insert_teacher ev o rows
  = inr (rows ++ [Teacher.inserted (next_id (Teacher.id <$> rows))
                    (utcnow ev) o]).
Proof.
  intros Hb Hcode Hfn Hln Hem Hfree Hfree'.
  unfold insert_teacher. rewrite Hb. cbv zeta. simpl.
  by rewrite !not_null_text, !unique_free.
Qed.

Lemma has_required_not_none dct key :
  has_required ["first_name"; "last_name"; "email"] dct →
  key ∈ ["first_name"; "last_name"; "email"] →
  lookup_or dct key PNone ≠ PNone.
Proof. intros H Hin. apply truthy_not_none. by apply H. Qed.

(** An accepted student payload: what is stored and what is answered. *)
Lemma create_student_accepted ev args dct d :
  has_required ["first_name"; "last_name"; "email"] dct →
  commit_fault ev = None →
  reload_fault ev = None →
  forallb bindable (Student.bound (requested_student ev dct)) = true →
  lookup_or dct "student_id" (PStr ("STU-" +:+ now_timestamp ev)) ≠ PNone →
  text_affinity (lookup_or dct "email" PNone) ∉ Student.email <$> students d →
  text_affinity
    (lookup_or dct "student_id" (PStr ("STU-" +:+ now_timestamp ev)))
    ∉ Student.student_id <$> students d →
  let row := Student.inserted (next_id (Student.id <$> students d))
               (utcnow ev) (requested_student ev dct) in
  ∃ body,
    create_student ev (mk_request args (inr (Obj dct))) (fresh d)
    = (inr (body, 201),
       fresh (mk_database (students d ++ [row]) (teachers d) (classes d)))
    ∧ Student.to_dict row = inr body.
Proof.
  intros Hreq Hfault Hreload Hb Hcode Hemail Hfree row.
  destruct (to_dict_enrolled row) as [body Hbody]; [by eexists|].
  exists body. split; [|exact Hbody].
  unfold create_student, try_except.
  rewrite (create_student_body_run ev args dct d Hreq).
  rewrite (insert_student_accepts ev _ (students d) Hb); try done;
    try (apply (has_required_not_none dct _ Hreq); repeat constructor).
  rewrite Hfault. cbv zeta. rewrite Hreload, last_last.
  fold row. by rewrite Hbody.
Qed.

Lemma to_dict_hired (r : Teacher.t) :
  hired r → ∃ body, Teacher.to_dict r = inr body.
Proof. intros [d Hd]. unfold Teacher.to_dict. rewrite Hd. by eexists. Qed.

(** An accepted teacher payload: what is stored and what is answered. *)
Lemma create_teacher_accepted ev args dct d :
  has_required ["first_name"; "last_name"; "email"] dct →
  commit_fault ev = None →
  reload_fault ev = None →
  forallb bindable (Teacher.bound (requested_teacher ev dct)) = true →
  lookup_or dct "teacher_id" (PStr ("TCH-" +:+ now_timestamp ev)) ≠ PNone →
  text_affinity (lookup_or dct "email" PNone) ∉ Teacher.email <$> teachers d →
  text_affinity
    (lookup_or dct "teacher_id" (PStr ("TCH-" +:+ now_timestamp ev)))
    ∉ Teacher.teacher_id <$> teachers d →
  let row := Teacher.inserted (next_id (Teacher.id <$> teachers d))
               (utcnow ev) (requested_teacher ev dct) in
  ∃ body,
    create_teacher ev (mk_request args (inr (Obj dct))) (fresh d)
    = (inr (body, 201),
       fresh (mk_database (students d) (teachers d ++ [row]) (classes d)))
    ∧ Teacher.to_dict row = inr body.
Proof.
  intros Hreq Hfault Hreload Hb Hcode Hemail Hfree row.
  destruct (to_dict_hired row) as [body Hbody]; [by eexists|].
  exists body. split; [|exact Hbody].
  unfold create_teacher, try_except.
  rewrite (create_teacher_body_run ev args dct d Hreq).
  rewrite (insert_teacher_accepts ev _ (teachers d) Hb); try done;
    try (apply (has_required_not_none dct _ Hreq); repeat constructor).
  rewrite Hfault. cbv zeta. rewrite Hreload, last_last.
  fold row. by rewrite Hbody.
Qed.


(** A 201 from the student route means one appended row, built from the
    payload by [requested_student]. *)
Lemma create_student_201 ev args dct d body w' :
  create_student ev (mk_request args (inr (Obj dct))) (fresh d)
  = (inr (body, 201), w') →
  let row := Student.inserted (next_id (Student.id <$> students d))
               (utcnow ev) (requested_student ev dct) in
  w' = fresh (mk_database (students d ++ [row]) (teachers d) (classes d))
  ∧ Student.to_dict row = inr body.
Proof.
  destruct (forallb (fun k => truthy (lookup_or dct k PNone))
              ["first_name"; "last_name"; "email"]) eqn:Hreq.
  - apply forallb_has_required in Hreq.
    unfold create_student, try_except.
    rewrite (create_student_body_run ev args dct d Hreq).
    destruct (insert_student _ _ _) as [e|rows] eqn:Hins;
      [intros [=]|].
    apply insert_student_appends in Hins as ->.
    destruct (commit_fault ev); [intros [=]|]. cbv zeta.
    destruct (reload_fault ev); [intros [=]|].
    rewrite last_last.
    destruct (Student.to_dict _) eqn:Hbody; [intros [=]|].
    by intros [= <- <-].
  - rewrite (create_student_rejects ev args dct (fresh d) Hreq). intros [=].
Qed.

Lemma create_teacher_201 ev args dct d body w' :
  create_teacher ev (mk_request args (inr (Obj dct))) (fresh d)
  = (inr (body, 201), w') →
  let row := Teacher.inserted (next_id (Teacher.id <$> teachers d))
               (utcnow ev) (requested_teacher ev dct) in
  w' = fresh (mk_database (students d) (teachers d ++ [row]) (classes d))
  ∧ Teacher.to_dict row = inr body.
Proof.
  destruct (forallb (fun k => truthy (lookup_or dct k PNone))
              ["first_name"; "last_name"; "email"]) eqn:Hreq.
  - apply forallb_has_required in Hreq.
    unfold create_teacher, try_except.
    rewrite (create_teacher_body_run ev args dct d Hreq).
    destruct (insert_teacher _ _ _) as [e|rows] eqn:Hins;
      [intros [=]|].
    apply insert_teacher_appends in Hins as ->.
    destruct (commit_fault ev); [intros [=]|]. cbv zeta.
    destruct (reload_fault ev); [intros [=]|].
    rewrite last_last.
    destruct (Teacher.to_dict _) eqn:Hbody; [intros [=]|].
    by intros [= <- <-].
  - rewrite (create_teacher_rejects ev args dct (fresh d) Hreq). intros [=].
Qed.

(** C8. A new student or teacher is always created with status 'active',
    whatever the caller supplies.  A creation payload the table takes
    (truthy required fields, values that can be bound, a code that is not
    null, email and code not yet stored) is answered, when commit and
    reload do not fail, with 201 and a row whose stored and serialized
    status is 'active'; a created student has no date_of_birth, no
    class_id and the insert-time default as enrollment_date.  Conversely
    every 201 of the two routes comes with such a row.  The routes never
    read the keys status, date_of_birth, class_id or enrollment_date, so
    whatever the caller puts under them changes neither the answer nor
    what is stored. *)
Theorem create_ignores_caller_status (ev : env) (args : gmap string Z)
    (dct : gmap string pyval) (d : database) :
  let req := mk_request args (inr (Obj dct)) in
  (has_required ["first_name"; "last_name"; "email"] dct →
   commit_fault ev = None →
   reload_fault ev = None →
   forallb bindable (Student.bound (requested_student ev dct)) = true →
   lookup_or dct "student_id" (PStr ("STU-" +:+ now_timestamp ev)) ≠ PNone →
   text_affinity (lookup_or dct "email" PNone)
     ∉ Student.email <$> students d →
   text_affinity
     (lookup_or dct "student_id" (PStr ("STU-" +:+ now_timestamp ev)))
     ∉ Student.student_id <$> students d →
     ∃ row body,
       create_student ev req (fresh d)
       = (inr (body, 201),
          fresh (mk_database (students d ++ [row]) (teachers d) (classes d)))
       ∧ Student.to_dict row = inr body
       ∧ Student.status row = PStr "active"
       ∧ json_field "status" body = Some (JVal (PStr "active")))
  ∧ (∀ body w',
       create_student ev req (fresh d) = (inr (body, 201), w') →
       ∃ row,
         w' = fresh (mk_database (students d ++ [row]) (teachers d)
                                 (classes d))
         ∧ Student.to_dict row = inr body
         ∧ Student.status row = PStr "active"
         ∧ json_field "status" body = Some (JVal (PStr "active"))
         ∧ Student.date_of_birth row = None
         ∧ Student.class_id row = None
         ∧ Student.enrollment_date row = Some (utcnow ev))
  ∧ (∀ key v w,
       key ∈ ["status"; "date_of_birth"; "class_id"; "enrollment_date"] →
       create_student ev (mk_request args (inr (Obj (<[key := v]> dct)))) w
       = create_student ev req w)
  ∧ (has_required ["first_name"; "last_name"; "email"] dct →
     commit_fault ev = None →
     reload_fault ev = None →
     forallb bindable (Teacher.bound (requested_teacher ev dct)) = true →
     lookup_or dct "teacher_id" (PStr ("TCH-" +:+ now_timestamp ev)) ≠ PNone →
     text_affinity (lookup_or dct "email" PNone)
       ∉ Teacher.email <$> teachers d →
     text_affinity
       (lookup_or dct "teacher_id" (PStr ("TCH-" +:+ now_timestamp ev)))
       ∉ Teacher.teacher_id <$> teachers d →
       ∃ row body,
         create_teacher ev req (fresh d)
         = (inr (body, 201),
            fresh (mk_database (students d) (teachers d ++ [row])
                               (classes d)))
         ∧ Teacher.to_dict row = inr body
         ∧ Teacher.status row = PStr "active"
         ∧ json_field "status" body = Some (JVal (PStr "active")))
  ∧ (∀ body w',
       create_teacher ev req (fresh d) = (inr (body, 201), w') →
       ∃ row,
         w' = fresh (mk_database (students d) (teachers d ++ [row])
                                 (classes d))
         ∧ Teacher.to_dict row = inr body
         ∧ Teacher.status row = PStr "active"
         ∧ json_field "status" body = Some (JVal (PStr "active")))
  ∧ (∀ v w,
       create_teacher ev (mk_request args (inr (Obj (<["status" := v]> dct)))) w
       = create_teacher ev req w).
Proof.
  intros req. repeat apply conj.
  - intros Hreq Hfault Hreload Hb Hcode Hemail Hfree.
    destruct (create_student_accepted ev args dct d Hreq Hfault Hreload Hb
                Hcode Hemail Hfree) as (body & Hrun & Hbody).
    eexists _, body. split; [exact Hrun|]. split; [exact Hbody|].
    split; [done|].
    revert Hbody. unfold Student.to_dict. simpl. by intros [= <-].
  - intros body w' H. apply create_student_201 in H as [-> Hbody].
    eexists. split; [done|]. split; [exact Hbody|].
    split; [done|]. split; [|done].
    revert Hbody. unfold Student.to_dict. simpl. by intros [= <-].
  - intros key v w Hin.
    unfold create_student, create_student_body, get_json, dict_get,
      try_except, mbind, M_bind, mret, M_ret, raise.
    cbn [json_body]. cbv beta iota zeta.
    revert Hin. rewrite !elem_of_cons, elem_of_nil.
    intros [->|[->|[->|[->|[]]]]]; by rewrite !lookup_insert_ne by done.
  - intros Hreq Hfault Hreload Hb Hcode Hemail Hfree.
    destruct (create_teacher_accepted ev args dct d Hreq Hfault Hreload Hb
                Hcode Hemail Hfree) as (body & Hrun & Hbody).
    eexists _, body. split; [exact Hrun|]. split; [exact Hbody|].
    split; [done|].
    revert Hbody. unfold Teacher.to_dict. simpl. by intros [= <-].
  - intros body w' H. apply create_teacher_201 in H as [-> Hbody].
    eexists. split; [done|]. split; [exact Hbody|].
    split; [done|].
    revert Hbody. unfold Teacher.to_dict. simpl. by intros [= <-].
  - intros v w.
    unfold create_teacher, create_teacher_body, get_json, dict_get,
      try_except, mbind, M_bind, mret, M_ret, raise.
    cbn [json_body]. cbv beta iota zeta.
    by rewrite !lookup_insert_ne by done.
Qed.

(** ** Examples *)

(** Concrete payloads. *)
Ltac required :=
  let k := fresh "k" in
  let Hk := fresh "Hk" in
  intros k Hk; apply list_elem_of_In in Hk; simpl in Hk;
  repeat (destruct Hk as [<-|Hk]; [vm_compute; reflexivity|]);
  destruct Hk.

Ltac absent :=
  let H := fresh "H" in
  intros H; apply list_elem_of_In in H; vm_compute in H;
  repeat (destruct H as [H|H]; [discriminate H|]); exact H.



Lemma get_all_students_pages_witness :
  (∃ items pages,
     get_all_students (mk_request {[ "page" := 2; "per_page" := 2 ]} no_json)
                      (fresh school3)
     = (inr (JDict [("students", JList items);
                    ("total", JVal (PInt 3));
                    ("pages", JVal (PInt pages));
                    ("current_page", JVal (PInt 2))], 200), fresh school3)
     ∧ for_each Student.to_dict [eve] = inr items)
  ∧ get_all_students
      (mk_request {[ "per_page" := 9223372036854775808 ]} no_json)
      (fresh school3)
    = (inr (error "Python int too large to convert to SQLite INTEGER", 500),
       fresh school3).
Proof.
  split.
  - destruct (get_all_students_pages
                (mk_request {[ "page" := 2; "per_page" := 2 ]} no_json)
                (fresh school3)) as [Hok _].
    destruct Hok as (items & pages & Hrun & Hitems & _).
    { unfold page_exists. vm_compute. split; [discriminate|].
      split; [discriminate|]. right. split; reflexivity. }
    { unfold page_bindable. vm_compute. split; discriminate. }
    { vm_compute. repeat constructor; by eexists. }
    exists items, pages. split; [exact Hrun|exact Hitems].
  - destruct (get_all_students_pages
                (mk_request {[ "per_page" := 9223372036854775808 ]} no_json)
                (fresh school3)) as (_ & _ & Hover).
    apply Hover.
    + vm_compute. discriminate.
    + vm_compute. discriminate.
    + unfold page_bindable. vm_compute. intros [H _]. by apply H.
Defined.

(** C1 as stated fails: the page after the last one is answered 500,
    not 200 with an empty list. *)
Lemma page_past_last_is_500 :
  get_all_students (mk_request {[ "page" := 2 ]} no_json) (fresh school)
  = (inr (error (str NotFound), 500), fresh school)
  ∧ ¬ ∃ body,
        (get_all_students (mk_request {[ "page" := 2 ]} no_json)
                          (fresh school)).1
        = inr (body, 200).
Proof.
  split; [reflexivity|]. intros [body H]. vm_compute in H. discriminate H.
Qed.

Lemma missing_required_field_400_witness :
  create_student ev0 (post {[ "first_name" := PStr "Grace" ]}) (fresh school)
  = (inr (error "Missing required fields", 400), fresh school)
  ∧ create_class ev0 (post {[ "class_name" := PStr "Form 2" ]}) (fresh school)
    = (inr (error "Missing required fields", 400), fresh school).
Proof.
  split.
  - destruct (missing_required_field_400 ev0 ∅
                {[ "first_name" := PStr "Grace" ]} (fresh school))
      as [Hstudent _].
    destruct Hstudent as [Hrun _]; [|exact Hrun].
    exists "last_name". split; [|vm_compute; reflexivity].
    apply list_elem_of_In. simpl. tauto.
  - destruct (missing_required_field_400 ev0 ∅
                {[ "class_name" := PStr "Form 2" ]} (fresh school))
      as [_ Hclass].
    destruct Hclass as [Hrun _]; [|exact Hrun].
    exists "grade_level". split; [|vm_compute; reflexivity].
    apply list_elem_of_In. simpl. tauto.
Defined.

Lemma falsy_required_field_400_witness :
  create_teacher ev0 (post (<[ "email" := PStr "" ]> alan)) (fresh school)
  = (inr (error "Missing required fields", 400), fresh school)
  ∧ create_class ev0 (post {[ "class_name" := PStr "Form 2";
                              "grade_level" := PBool false ]}) (fresh school)
    = (inr (error "Missing required fields", 400), fresh school).
Proof.
  split.
  - assert (Hk : (<[ "email" := PStr "" ]> alan) !! "email"
                 = Some (PStr "")) by (vm_compute; reflexivity).
    destruct (falsy_required_field_400 ev0 ∅
                (<[ "email" := PStr "" ]> alan) (fresh school)
                "email" (PStr "") Hk eq_refl) as [Hperson _].
    destruct Hperson as (_ & _ & Hrun & _); [|exact Hrun].
    apply list_elem_of_In. simpl. tauto.
  - assert (Hk : ({[ "class_name" := PStr "Form 2";
                     "grade_level" := PBool false ]} : gmap string pyval)
                 !! "grade_level" = Some (PBool false))
      by (vm_compute; reflexivity).
    destruct (falsy_required_field_400 ev0 ∅
                {[ "class_name" := PStr "Form 2";
                   "grade_level" := PBool false ]} (fresh school)
                "grade_level" (PBool false) Hk eq_refl) as [_ Hclass].
    destruct Hclass as [Hrun _]; [|exact Hrun].
    apply list_elem_of_In. simpl. tauto.
Defined.



Lemma mutating_route_rolls_back_witness :
  delete_student ev_locked 1 (fresh school)
  = (inr (error "database is locked", 500), fresh school)
  ∧ create_student ev0 (mk_request ∅ (inr (NonObj "list"))) (fresh school)
    = (inr (error "'list' object has no attribute 'get'", 500), fresh school).
Proof.
  split.
  - destruct (mutating_route_rolls_back (DeleteStudent 1) ev_locked
                (mk_request ∅ no_json) school
                (OperationalError "database is locked")
                (mk_world school [DeletedStudent ada]) eq_refl)
      as [Hrun _].
    exact Hrun.
  - destruct (mutating_route_rolls_back CreateStudent ev0
                (mk_request ∅ (inr (NonObj "list"))) school
                (AttributeError "list" "get") (fresh school) eq_refl)
      as [Hrun _].
    exact Hrun.
Defined.

(** C5 as stated fails: a write can survive a 500.  A PUT on a student
    whose enrollment_date is NULL commits the new phone and is then
    answered 500, because [to_dict] raises; a POST whose row cannot be
    reloaded after the commit is answered 500 with the row stored. *)
Lemma write_survives_500 :
  let r := update_student ev0 (put {[ "phone" := PStr "555-0111" ]}) 4
                          (fresh school_zed) in
  let r' := create_student ev_gone (post grace) (fresh school) in
  r.1 = inr (error "'NoneType' object has no attribute 'isoformat'", 500)
  ∧ Student.phone
    <$> List.find (fun s => Z.eqb (Student.id s) 4) (students school_zed)
    = Some PNone
  ∧ Student.phone
    <$> List.find (fun s => Z.eqb (Student.id s) 4) (students (db r.2))
    = Some (PStr "555-0111")
  ∧ r'.1 = inr (error "unable to open database file", 500)
  ∧ length (students school) = 2%nat
  ∧ length (students (db r'.2)) = 3%nat.
Proof. repeat split; vm_compute; reflexivity. Qed.








Lemma create_ignores_caller_status_witness :
  (∃ row body,
     create_student ev0
       (post (<[ "status" := PStr "graduated" ]>
              (<[ "class_id" := PInt 1 ]> grace))) (fresh school)
     = (inr (body, 201), fresh (mk_database [ada; bob; row] [] [form1]))
     ∧ Student.status row = PStr "active"
     ∧ json_field "status" body = Some (JVal (PStr "active")))
  ∧ (∃ row body,
       create_teacher ev0 (post (<[ "status" := PStr "retired" ]> alan))
                      (fresh school)
       = (inr (body, 201), fresh (mk_database [ada; bob] [row] [form1]))
       ∧ Teacher.status row = PStr "active"
       ∧ json_field "status" body = Some (JVal (PStr "active"))).
Proof.
  split.
  - destruct (create_ignores_caller_status ev0 ∅
                (<[ "status" := PStr "graduated" ]>
                 (<[ "class_id" := PInt 1 ]> grace)) school)
      as (Hstudent & _).
    destruct Hstudent as (row & body & Hrun & _ & Hstatus & Hjson).
    { required. }
    { reflexivity. }
    { reflexivity. }
    { vm_compute. reflexivity. }
    { vm_compute. discriminate. }
    { absent. }
    { absent. }
    exists row, body. split; [exact Hrun|]. by split.
  - destruct (create_ignores_caller_status ev0 ∅
                (<[ "status" := PStr "retired" ]> alan) school)
      as (_ & _ & _ & Hteacher & _).
    destruct Hteacher as (row & body & Hrun & _ & Hstatus & Hjson).
    { required. }
    { reflexivity. }
    { reflexivity. }
    { vm_compute. reflexivity. }
    { vm_compute. discriminate. }
    { absent. }
    { absent. }
    exists row, body. split; [exact Hrun|]. by split.
Defined.

(** * Further properties of the routes *)

(** ** What a mutating route can do to a fresh session *)

Lemma raised_is_committed m ev d e d' :
  raised_after_commit m ev d e d' → committed m ev d d'.
Proof. intros (Hfault & Hc & _). by split. Qed.

Lemma create_student_returns ev req d body code w' :
  create_student_body ev req (fresh d) = (inr (body, code), w') →
  (code = 400 ∧ w' = fresh d)
  ∨ (code = 201 ∧ ∃ d', committed CreateStudent ev d d' ∧ w' = fresh d').
Proof.
  destruct req as [args [e0|[dct|t]]]; [by intros [=]| |by intros [=]].
  destruct (forallb (fun k => truthy (lookup_or dct k PNone))
              ["first_name"; "last_name"; "email"]) eqn:Hreq.
  - apply forallb_has_required in Hreq.
    rewrite (create_student_body_run ev args dct d Hreq).
    destruct (insert_student _ _ _) as [e1|rows] eqn:Hins; [by intros [=]|].
    destruct (commit_fault ev) eqn:Hfault; [by intros [=]|]. cbv zeta.
    destruct (reload_fault ev); [by intros [=]|].
    destruct (Student.to_dict _); [by intros [=]|].
    intros [= <- <- <-]. right. split; [done|]. eexists.
    split; [|reflexivity]. split; [done|].
    exists (NewStudent (requested_student ev dct)).
    split; [by exists dct|]. simpl. by rewrite Hins.
  - rewrite (create_student_body_rejects ev args dct (fresh d) Hreq).
    intros [= <- <- <-]. by left.
Qed.

Lemma create_teacher_returns ev req d body code w' :
  create_teacher_body ev req (fresh d) = (inr (body, code), w') →
  (code = 400 ∧ w' = fresh d)
  ∨ (code = 201 ∧ ∃ d', committed CreateTeacher ev d d' ∧ w' = fresh d').
Proof.
  destruct req as [args [e0|[dct|t]]]; [by intros [=]| |by intros [=]].
  destruct (forallb (fun k => truthy (lookup_or dct k PNone))
              ["first_name"; "last_name"; "email"]) eqn:Hreq.
  - apply forallb_has_required in Hreq.
    rewrite (create_teacher_body_run ev args dct d Hreq).
    destruct (insert_teacher _ _ _) as [e1|rows] eqn:Hins; [by intros [=]|].
    destruct (commit_fault ev) eqn:Hfault; [by intros [=]|]. cbv zeta.
    destruct (reload_fault ev); [by intros [=]|].
    destruct (Teacher.to_dict _); [by intros [=]|].
    intros [= <- <- <-]. right. split; [done|]. eexists.
    split; [|reflexivity]. split; [done|].
    exists (NewTeacher (requested_teacher ev dct)).
    split; [by exists dct|]. simpl. by rewrite Hins.
  - rewrite (create_teacher_body_rejects ev args dct (fresh d) Hreq).
    intros [= <- <- <-]. by left.
Qed.

Lemma create_class_returns ev req d body code w' :
  create_class_body ev req (fresh d) = (inr (body, code), w') →
  (code = 400 ∧ w' = fresh d)
  ∨ (code = 201 ∧ ∃ d', committed CreateClass ev d d' ∧ w' = fresh d').
Proof.
  destruct req as [args [e0|[dct|t]]]; [by intros [=]| |by intros [=]].
  destruct (forallb (fun k => truthy (lookup_or dct k PNone))
              ["class_name"; "grade_level"]) eqn:Hreq.
  - apply forallb_has_required in Hreq.
    rewrite (create_class_body_run ev args dct d Hreq).
    destruct (insert_class _ _ _) as [e1|rows] eqn:Hins; [by intros [=]|].
    destruct (commit_fault ev) eqn:Hfault; [by intros [=]|]. cbv zeta.
    destruct (reload_fault ev); [by intros [=]|].
    intros [= <- <- <-]. right. split; [done|]. eexists.
    split; [|reflexivity]. split; [done|].
    exists (NewClass (requested_class dct)).
    split; [by exists dct|]. simpl. by rewrite Hins.
  - rewrite (create_class_body_rejects ev args dct (fresh d) Hreq).
    intros [= <- <- <-]. by left.
Qed.

Lemma update_student_returns ev req pk d body code w' :
  update_student_body ev req pk (fresh d) = (inr (body, code), w') →
  (code = 404 ∧ w' = fresh d)
  ∨ (code = 200
     ∧ ∃ d', committed (UpdateStudent pk) ev d d' ∧ w' = fresh d').
Proof.
  destruct (List.find (fun r => Z.eqb (Student.id r) pk) (students d))
    as [s|] eqn:Hfind.
  - destruct req as [args [e0|[dct|t]]].
    + unfold update_student_body, get_json. run.
      rewrite (query_get_some pk (fresh d) s Hfind). simpl. by intros [=].
    + rewrite (update_student_body_run ev args dct d pk s Hfind).
      destruct (update_student_row _ _ _) as [e1|rows] eqn:Hrow;
        [by intros [=]|].
      destruct (commit_fault ev) eqn:Hfault; [by intros [=]|]. cbv zeta.
      destruct (reload_fault ev); [by intros [=]|].
      destruct (Student.to_dict _); [by intros [=]|].
      intros [= <- <- <-]. right. split; [done|]. eexists.
      split; [|reflexivity]. split; [done|].
      exists (DirtyStudent (overwritten dct s)).
      split; [by exists s, dct|]. simpl. by rewrite Hrow.
    + unfold update_student_body, get_json, dict_get. run.
      rewrite (query_get_some pk (fresh d) s Hfind). simpl. by intros [=].
  - unfold update_student_body. run.
    rewrite (query_get_missing pk (fresh d) Hfind).
    destruct (bindable (PInt pk)); simpl; intros H; simplify_eq. by left.
Qed.

Lemma delete_student_returns ev pk d body code w' :
  delete_student_body ev pk (fresh d) = (inr (body, code), w') →
  (code = 404 ∧ w' = fresh d)
  ∨ (code = 200
     ∧ ∃ d', committed (DeleteStudent pk) ev d d' ∧ w' = fresh d').
Proof.
  destruct (List.find (fun r => Z.eqb (Student.id r) pk) (students d))
    as [s|] eqn:Hfind.
  - rewrite (delete_student_body_run ev d pk s Hfind).
    destruct (commit_fault ev) eqn:Hfault; [by intros [=]|].
    intros [= <- <- <-]. right. split; [done|]. eexists.
    split; [|reflexivity]. split; [done|].
    exists (DeletedStudent s). by split.
  - unfold delete_student_body. run.
    rewrite (query_get_missing pk (fresh d) Hfind).
    destruct (bindable (PInt pk)); simpl; intros H; simplify_eq. by left.
Qed.

Lemma try_block_returns m ev req d body code w' :
  try_block m ev req (fresh d) = (inr (body, code), w') →
  (code ∈ [400; 404] ∧ w' = fresh d)
  ∨ (code = success_code m ∧ ∃ d', committed m ev d d' ∧ w' = fresh d').
Proof.
  destruct m; simpl; intros H.
  - apply create_student_returns in H as [[-> ->]|H]; [left|by right].
    split; [|done]. rewrite !elem_of_cons. tauto.
  - apply update_student_returns in H as [[-> ->]|H]; [left|by right].
    split; [|done]. rewrite !elem_of_cons. tauto.
  - apply delete_student_returns in H as [[-> ->]|H]; [left|by right].
    split; [|done]. rewrite !elem_of_cons. tauto.
  - apply create_teacher_returns in H as [[-> ->]|H]; [left|by right].
    split; [|done]. rewrite !elem_of_cons. tauto.
  - apply create_class_returns in H as [[-> ->]|H]; [left|by right].
    split; [|done]. rewrite !elem_of_cons. tauto.
Qed.

Lemma route_outcome m ev req d :
  outcome m ev d (route m ev req (fresh d)).
Proof.
  rewrite route_is_guarded_try_block. unfold try_except.
  destruct (try_block m ev req (fresh d)) as [[e|[body code]] w'] eqn:H.
  - unfold rollback_and_report, session_.rollback. run.
    exists (error (str e)), 500, (db w'). split; [done|].
    destruct (try_block_raises _ _ _ _ _ _ H) as [->|Hafter].
    + left. split; [|done]. rewrite !elem_of_cons. tauto.
    + right. right. split; [done|]. by exists e.
  - apply try_block_returns in H as [[Hcode ->]|(-> & d' & Hc & ->)].
    + exists body, code, d. split; [done|]. left. split; [|done].
      revert Hcode. rewrite !elem_of_cons, !elem_of_nil. tauto.
    + exists body, (success_code m), d'. split; [done|]. right. by left.
Qed.

(** Whatever a mutating route answers, its tables are those from before
    or those with one change committed. *)
Lemma route_tables m ev req d :
  let d' := db (route m ev req (fresh d)).2 in
  d' = d ∨ committed m ev d d'.
Proof.
  destruct (route_outcome m ev req d) as (body & code & d' & -> & H).
  simpl. destruct H as [[_ ->]|[[_ H]|[_ [e H]]]]; [by left|by right|].
  right. by eapply raised_is_committed.
Qed.

(** ** The tables keep what their columns declare *)

Lemma next_id_above (ids : list Z) (x : Z) : x ∈ ids → x < next_id ids.
Proof.
  unfold next_id. induction ids as [|y ids IH]; [by intros ?%elem_of_nil|].
  rewrite elem_of_cons. simpl. intros [->|H]; [lia|].
  specialize (IH H). lia.
Qed.

Lemma next_id_fresh (ids : list Z) : next_id ids ∉ ids.
Proof. intros H%next_id_above. lia. Qed.

Lemma first_violation_none (checks : list (option violation)) :
  first_violation checks = None → Forall (fun c => c = None) checks.
Proof.
  induction checks as [|[v|] checks IH]; simpl; intros H.
  - constructor.
  - discriminate H.
  - constructor; [done|by apply IH].
Qed.

Lemma not_null_passed col v : not_null col v = None → v ≠ PNone.
Proof. unfold not_null. by case_decide. Qed.

Lemma unique_passed col v others : unique col v others = None → v ∉ others.
Proof. unfold unique. by case_decide. Qed.

Lemma NoDup_snoc {A} (l : list A) (x : A) :
  NoDup l → x ∉ l → NoDup (l ++ [x]).
Proof.
  intros Hl Hx. apply NoDup_app. split; [done|]. split.
  - intros y Hy ->%list_elem_of_singleton. done.
  - apply NoDup_singleton.
Qed.

Lemma NoDup_fmap_filter {A B} (f : A → B) (p : A → bool) (l : list A) :
  NoDup (f <$> l) → NoDup (f <$> List.filter p l).
Proof.
  induction l as [|x l IH]; simpl; [done|].
  rewrite NoDup_cons. intros [Hx Hl].
  destruct (p x); [|by apply IH]. simpl.
  apply NoDup_cons. split; [|by apply IH].
  intros (y & Hy & Hin)%list_elem_of_fmap. apply Hx.
  apply list_elem_of_fmap. exists y. split; [done|].
  apply list_elem_of_In, filter_In in Hin as [Hin _].
  by apply list_elem_of_In.
Qed.

Lemma Forall_filter_bool {A} (P : A → Prop) (p : A → bool) (l : list A) :
  Forall P l → Forall P (List.filter p l).
Proof.
  induction 1 as [|x l Hx Hl IH]; simpl; [constructor|].
  destruct (p x); [by constructor|done].
Qed.

Lemma insert_student_ok ev o rows rows' :
  students_ok rows →
  insert_student ev o rows = inr rows' →
  students_ok rows'.
Proof.
  intros (Hid & Hcode & Hemail & Hnull).
  unfold insert_student. destruct (negb _); [done|]. cbv zeta.
  match goal with
  | |- context [first_violation ?l] => destruct (first_violation l) eqn:Hv
  end; [done|]. intros [= <-].
  apply first_violation_none in Hv.
  rewrite !Forall_cons in Hv.
  destruct Hv as (N1%not_null_passed & N2%not_null_passed
                  & N3%not_null_passed & N4%not_null_passed
                  & U1%unique_passed & U2%unique_passed & _).
  unfold students_ok. rewrite !fmap_app. simpl.
  split; [apply NoDup_snoc; [done|apply next_id_fresh]|].
  split; [by apply NoDup_snoc|]. split; [by apply NoDup_snoc|].
  apply Forall_app. split; [done|]. by repeat constructor.
Qed.

Lemma insert_teacher_ok ev o rows rows' :
  teachers_ok rows →
  insert_teacher ev o rows = inr rows' →
  teachers_ok rows'.
Proof.
  intros (Hid & Hcode & Hemail & Hnull).
  unfold insert_teacher. destruct (negb _); [done|]. cbv zeta.
  match goal with
  | |- context [first_violation ?l] => destruct (first_violation l) eqn:Hv
  end; [done|]. intros [= <-].
  apply first_violation_none in Hv.
  rewrite !Forall_cons in Hv.
  destruct Hv as (N1%not_null_passed & N2%not_null_passed
                  & N3%not_null_passed & N4%not_null_passed
                  & U1%unique_passed & U2%unique_passed & _).
  unfold teachers_ok. rewrite !fmap_app. simpl.
  split; [apply NoDup_snoc; [done|apply next_id_fresh]|].
  split; [by apply NoDup_snoc|]. split; [by apply NoDup_snoc|].
  apply Forall_app. split; [done|]. by repeat constructor.
Qed.

Lemma insert_class_ok ev o rows rows' :
  classes_ok rows →
  insert_class ev o rows = inr rows' →
  classes_ok rows'.
Proof.
  intros (Hid & Hname & Hnull).
  unfold insert_class. destruct (negb _); [done|]. cbv zeta.
  match goal with
  | |- context [first_violation ?l] => destruct (first_violation l) eqn:Hv
  end; [done|]. intros [= <-].
  apply first_violation_none in Hv.
  rewrite !Forall_cons in Hv.
  destruct Hv as (N1%not_null_passed & N2%not_null_passed
                  & U1%unique_passed & _).
  unfold classes_ok. rewrite !fmap_app. simpl.
  split; [apply NoDup_snoc; [done|apply next_id_fresh]|].
  split; [by apply NoDup_snoc|].
  apply Forall_app. split; [done|]. by repeat constructor.
Qed.

Lemma delete_student_row_ok s rows :
  students_ok rows → students_ok (delete_student_row s rows).
Proof.
  intros (Hid & Hcode & Hemail & Hnull).
  unfold delete_student_row, other_students, students_ok.
  split; [by apply NoDup_fmap_filter|].
  split; [by apply NoDup_fmap_filter|].
  split; [by apply NoDup_fmap_filter|]. by apply Forall_filter_bool.
Qed.

(** With primary keys that occur once, the row a lookup finds splits the
    table into the rows before and after it, none of which has its key. *)
Lemma find_student_split (rows : list Student.t) (pk : Z) (old : Student.t) :
  NoDup (Student.id <$> rows) →
  List.find (fun r => Z.eqb (Student.id r) pk) rows = Some old →
  ∃ l1 l2, rows = l1 ++ old :: l2 ∧ Student.id old = pk
           ∧ ∀ r, r ∈ l1 ++ l2 → Student.id r ≠ pk.
Proof.
  induction rows as [|r rows IH]; simpl; [done|].
  rewrite NoDup_cons. intros [Hr Hrows].
  destruct (Z.eqb_spec (Student.id r) pk) as [E|E].
  - intros [= <-]. exists [], rows. split; [done|]. split; [done|].
    simpl. intros r' Hr' E'. apply Hr. rewrite E, <- E'.
    apply list_elem_of_fmap. by exists r'.
  - intros H. destruct (IH Hrows H) as (l1 & l2 & -> & Hpk & Hothers).
    exists (r :: l1), l2. split; [done|]. split; [done|].
    simpl. intros r' [->|Hr']%elem_of_cons; [done|by apply Hothers].
Qed.

Lemma replace_student_others (s : Student.t) (l : list Student.t) :
  (∀ r, r ∈ l → Student.id r ≠ Student.id s) →
  replace_student s l = l ∧ other_students s l = l.
Proof.
  induction l as [|r l IH]; [done|]. intros H.
  assert (E : Z.eqb (Student.id r) (Student.id s) = false).
  { apply Z.eqb_neq, H. by left. }
  destruct IH as [R O]; [intros r' Hr'; apply H; by right|].
  split.
  - change (replace_student s (r :: l))
      with ((if Z.eqb (Student.id r) (Student.id s) then s else r)
            :: replace_student s l).
    by rewrite E, R.
  - change (other_students s (r :: l))
      with (if negb (Z.eqb (Student.id r) (Student.id s))
            then r :: other_students s l else other_students s l).
    by rewrite E, O.
Qed.

Lemma replace_student_app (s : Student.t) (l1 l2 : list Student.t) :
  replace_student s (l1 ++ l2) = replace_student s l1 ++ replace_student s l2.
Proof. apply fmap_app. Qed.

Lemma other_students_app (s : Student.t) (l1 l2 : list Student.t) :
  other_students s (l1 ++ l2) = other_students s l1 ++ other_students s l2.
Proof. unfold other_students. apply List.filter_app. Qed.

Lemma replace_student_split (s old : Student.t) (l1 l2 : list Student.t) :
  Student.id old = Student.id s →
  (∀ r, r ∈ l1 ++ l2 → Student.id r ≠ Student.id s) →
  replace_student s (l1 ++ old :: l2) = l1 ++ s :: l2
  ∧ other_students s (l1 ++ old :: l2) = l1 ++ l2.
Proof.
  intros Hid Hothers.
  destruct (replace_student_others s l1) as [R1 O1].
  { intros r Hr. apply Hothers, elem_of_app. by left. }
  destruct (replace_student_others s l2) as [R2 O2].
  { intros r Hr. apply Hothers, elem_of_app. by right. }
  rewrite replace_student_app, other_students_app, R1, O1.
  change (replace_student s (old :: l2))
    with ((if Z.eqb (Student.id old) (Student.id s) then s else old)
          :: replace_student s l2).
  change (other_students s (old :: l2))
    with (if negb (Z.eqb (Student.id old) (Student.id s))
          then old :: other_students s l2 else other_students s l2).
  by rewrite Hid, Z.eqb_refl, R2, O2.
Qed.

Lemma NoDup_middle {A} (l1 l2 : list A) (x : A) :
  NoDup (l1 ++ x :: l2) ↔ NoDup (l1 ++ l2) ∧ x ∉ l1 ++ l2.
Proof.
  rewrite <- (Permutation_middle l1 l2 x), NoDup_cons. tauto.
Qed.

Lemma when_changed_passed old new c :
  when_changed old new c = None → new = old ∨ c = None.
Proof. unfold when_changed. case_decide; [by left; subst|by right]. Qed.

Lemma update_student_row_ok ev dct old rows rows' :
  students_ok rows →
  List.find (fun r => Z.eqb (Student.id r) (Student.id old)) rows
  = Some old →
  update_student_row ev (overwritten dct old) rows = inr rows' →
  students_ok rows'.
Proof.
  intros Hok Hfind. unfold update_student_row.
  change (Student.id (overwritten dct old)) with (Student.id old).
  rewrite Hfind.
  destruct (decide (old = overwritten dct old)) as [|_];
    [by intros [= <-]|].
  destruct (negb _); [done|]. cbv zeta.
  match goal with
  | |- context [first_violation ?l] => destruct (first_violation l) eqn:Hv
  end; [done|]. intros [= <-].
  apply first_violation_none in Hv. rewrite !Forall_cons in Hv.
  destruct Hv as (C1%when_changed_passed & C2%when_changed_passed
                  & C3%when_changed_passed & C4%when_changed_passed & _).
  destruct Hok as (Hid & Hcode & Hemail & Hnull).
  destruct (find_student_split rows _ old Hid Hfind)
    as (l1 & l2 & -> & _ & Hothers).
  destruct (replace_student_split
              (Student.updated (utcnow ev) old (overwritten dct old))
              old l1 l2)
    as [Hrep Hoth]; [done|done|].
  rewrite Hrep. simpl in Hoth.
  assert (Hoth' : other_students (overwritten dct old) (l1 ++ old :: l2)
                  = l1 ++ l2) by exact Hoth.
  rewrite Hoth' in C4. clear Hrep Hoth Hoth'.
  rewrite Forall_app, Forall_cons in Hnull.
  destruct Hnull as (Hn1 & (Nc & Nf & Nl & Ne) & Hn2).
  unfold students_ok. rewrite !fmap_app in *. simpl in *.
  split; [done|]. split; [done|]. split.
  - apply NoDup_middle in Hemail as [Hrest Hold].
    apply NoDup_middle. split; [done|].
    destruct C4 as [->|U%unique_passed];
      [by rewrite store_column_same|done].
  - apply Forall_app. split; [done|]. constructor; [|done]. simpl.
    split; [done|].
    split; [destruct C1 as [->|?%not_null_passed];
            [by rewrite store_column_same|done]|].
    split; [destruct C2 as [->|?%not_null_passed];
            [by rewrite store_column_same|done]|].
    destruct C3 as [->|?%not_null_passed];
      [by rewrite store_column_same|done].
Qed.

Lemma apply_change_ok m ev d c d' :
  database_ok d →
  change_of_route m ev d c →
  apply_change ev d c = inr d' →
  database_ok d'.
Proof.
  intros (Hs & Ht & Hc) Hroute.
  destruct m, c; simpl in Hroute; try done; simpl.
  - destruct (insert_student _ _ _) eqn:E; [done|]. intros [= <-].
    split; [|done]. by eapply insert_student_ok.
  - destruct Hroute as (s0 & dct & Hfind & ->).
    destruct (find_id_some Student.id _ _ _ Hfind) as [_ Hpk].
    destruct (update_student_row _ _ _) eqn:E; [done|]. intros [= <-].
    split; [|done]. eapply update_student_row_ok; [done| |exact E].
    by rewrite Hpk.
  - intros [= <-]. split; [|done]. by apply delete_student_row_ok.
  - destruct (insert_teacher _ _ _) eqn:E; [done|]. intros [= <-].
    split; [done|]. split; [|done]. by eapply insert_teacher_ok.
  - destruct (insert_class _ _ _) eqn:E; [done|]. intros [= <-].
    split; [done|]. split; [done|]. by eapply insert_class_ok.
Qed.
(** ** Invariants and frames of the routes *)

Lemma paginate_answers {A} (rows : list A) (p s : Z) (w : world) :
  (∃ page, query.paginate rows p s w = (inr page, w))
  ∨ (∃ e, query.paginate rows p s w = (inl e, w)).
Proof.
  unfold query.paginate, raise, mret, M_ret.
  destruct (Z.ltb p 1); [right; by eexists|].
  destruct (Z.ltb s 0); [right; by eexists|].
  destruct (negb _); [right; by eexists|]. cbv zeta.
  destruct (_ && _)%bool; [right; by eexists|]. left. by eexists.
Qed.

(** X1. The constraints the columns declare are an invariant of the
    mutating routes: from tables in which primary keys, codes, emails and
    class names occur once and the NOT NULL columns hold a value, every
    mutating route, on any request, leaves tables of that kind. *)
Theorem mutating_route_keeps_constraints (m : mutation) (ev : env)
    (req : request) (d : database) :
  database_ok d →
  database_ok (db (route m ev req (fresh d)).2).
Proof.
  intros Hok.
  destruct (route_tables m ev req d) as [->|(_ & c & Hc & Happly)];
    [done|].
  by eapply apply_change_ok.
Qed.

(** X2. A mutating route always answers: no exception leaves it, the
    status is one of 200, 201, 400, 404, 500, and whatever the outcome the
    session holds nothing pending afterwards.  A 400 or a 404 leaves the
    tables as they were, and so does a 500 unless its exception was
    raised after the commit. *)
Theorem mutating_route_answers (m : mutation) (ev : env) (req : request)
    (d : database) :
  ∃ body code d',
    route m ev req (fresh d) = (inr (body, code), fresh d')
    ∧ code ∈ [200; 201; 400; 404; 500]
    ∧ (code ∈ [400; 404] → d' = d)
    ∧ (code = 500 → d' = d ∨ ∃ e, raised_after_commit m ev d e d').
Proof.
  destruct (route_outcome m ev req d) as (body & code & d' & -> & H).
  exists body, code, d'. split; [done|].
  destruct H as [[Hcode ->]|[[-> H]|[-> H]]].
  - split; [|by split; [|left]].
    revert Hcode. rewrite !elem_of_cons, !elem_of_nil. tauto.
  - rewrite !elem_of_cons, !elem_of_nil.
    destruct m; simpl; (split; [tauto|]); split; lia.
  - rewrite !elem_of_cons, !elem_of_nil.
    split; [tauto|]. split; [lia|]. intros _. by right.
Qed.

(** X3. A mutating route writes one table only: the student routes leave
    teachers and classes as they were, teacher creation leaves students
    and classes, class creation leaves students and teachers. *)
Theorem mutating_route_touches_one_table (m : mutation) (ev : env)
    (req : request) (d : database) :
  let d' := db (route m ev req (fresh d)).2 in
  match m with
  | CreateStudent | UpdateStudent _ | DeleteStudent _ =>
      teachers d' = teachers d ∧ classes d' = classes d
  | CreateTeacher => students d' = students d ∧ classes d' = classes d
  | CreateClass => students d' = students d ∧ teachers d' = teachers d
  end.
Proof.
  destruct (route_tables m ev req d) as [->|(_ & c & Hc & Happly)];
    [by destruct m|].
  cbv zeta. revert Happly.
  generalize (db (route m ev req (fresh d)).2). intros d' Happly.
  destruct m, c; simpl in Hc, Happly; try done;
    repeat match type of Happly with
    | context [match ?x with _ => _ end] => destruct x
    end; by simplify_eq.
Qed.

Lemma get_all_students_answers req w :
  ∃ body code,
    get_all_students req w = (inr (body, code), w) ∧ code ∈ [200; 500].
Proof.
  unfold get_all_students, get_all_students_body, query.all_students, lift.
  run.
  destruct (paginate_answers (students (db w)) (args_get req "page" 1)
              (args_get req "per_page" 10) w) as [[page ->]|[e ->]].
  - simpl. destruct (for_each _ _); eexists _, _;
      (split; [reflexivity|]); rewrite !elem_of_cons; tauto.
  - eexists _, _. split; [reflexivity|]. rewrite !elem_of_cons; tauto.
Qed.

Lemma get_all_teachers_answers req w :
  ∃ body code,
    get_all_teachers req w = (inr (body, code), w) ∧ code ∈ [200; 500].
Proof.
  unfold get_all_teachers, get_all_teachers_body, query.all_teachers, lift.
  run.
  destruct (paginate_answers (teachers (db w)) (args_get req "page" 1)
              (args_get req "per_page" 10) w) as [[page ->]|[e ->]].
  - simpl. destruct (for_each _ _); eexists _, _;
      (split; [reflexivity|]); rewrite !elem_of_cons; tauto.
  - eexists _, _. split; [reflexivity|]. rewrite !elem_of_cons; tauto.
Qed.

Lemma get_student_answers pk w :
  ∃ body code,
    get_student pk w = (inr (body, code), w) ∧ code ∈ [200; 404; 500].
Proof.
  unfold get_student, get_student_body, lift. run.
  destruct (List.find (fun r => Z.eqb (Student.id r) pk) (students (db w)))
    as [s|] eqn:Hfind.
  - rewrite (query_get_some pk w s Hfind). simpl.
    destruct (Student.to_dict s); eexists _, _;
      (split; [reflexivity|]); rewrite !elem_of_cons; tauto.
  - rewrite (query_get_missing pk w Hfind).
    destruct (bindable (PInt pk)); eexists _, _;
      (split; [reflexivity|]); rewrite !elem_of_cons; tauto.
Qed.

(** X4. The read-only routes (welcome, health, stats, the three listings
    and the student lookup) always answer, with status 200, 404 or 500,
    and leave tables and session exactly as they were, whatever the
    request and whatever is pending; the welcome route always answers
    200, and the health and stats routes answer 200 when the storage
    engine answers their statements and 500 when it raises. *)
Theorem read_route_changes_nothing (r : reading) (ev : env) (req : request)
    (w : world) :
  ∃ body code,
    read_route r ev req w = (inr (body, code), w)
    ∧ code ∈ [200; 404; 500]
    ∧ match r with
      | HealthCheck probe | GetStats probe =>
          (probe = None → code = 200) ∧ (probe ≠ None → code = 500)
      | Index => code = 200
      | _ => True
      end.
Proof.
  destruct r; simpl.
  - eexists _, _. split; [reflexivity|].
    split; [rewrite !elem_of_cons; tauto|done].
  - destruct probe as [e|]; eexists _, _;
      (split; [reflexivity|]); (split; [rewrite !elem_of_cons; tauto|]);
      split; done.
  - destruct probe as [e|]; eexists _, _;
      (split; [reflexivity|]); (split; [rewrite !elem_of_cons; tauto|]);
      split; done.
  - destruct (get_all_students_answers req w) as (body & code & -> & H).
    exists body, code. split; [done|]. split; [|done].
    revert H. rewrite !elem_of_cons, !elem_of_nil. tauto.
  - destruct (get_student_answers student_id w) as (body & code & -> & H).
    exists body, code. by split.
  - destruct (get_all_teachers_answers req w) as (body & code & -> & H).
    exists body, code. split; [done|]. split; [|done].
    revert H. rewrite !elem_of_cons, !elem_of_nil. tauto.
  - eexists _, _. split; [reflexivity|].
    split; [rewrite !elem_of_cons; tauto|done].
Qed.

(** ** Counting, fetching and deleting *)

Lemma update_student_row_length ev s rows rows' :
  update_student_row ev s rows = inr rows' → length rows' = length rows.
Proof.
  unfold update_student_row.
  destruct (List.find _ _); [|by intros [= <-]].
  destruct (decide _); [by intros [= <-]|].
  destruct (negb _); [done|]. cbv zeta.
  match goal with
  | |- context [first_violation ?l] => destruct (first_violation l)
  end; [done|]. intros [= <-]. apply length_fmap.
Qed.

Lemma delete_student_row_length pk s rows :
  NoDup (Student.id <$> rows) →
  List.find (fun r => Z.eqb (Student.id r) pk) rows = Some s →
  (length (delete_student_row s rows) + 1)%nat = length rows.
Proof.
  intros Hid Hfind.
  destruct (find_student_split rows pk s Hid Hfind)
    as (l1 & l2 & -> & <- & Hothers).
  destruct (replace_student_split s s l1 l2 eq_refl Hothers) as [_ Hoth].
  unfold delete_student_row. rewrite Hoth, !length_app. simpl. lia.
Qed.

Lemma apply_change_counts m ev d c d' :
  database_ok d →
  change_of_route m ev d c →
  apply_change ev d c = inr d' →
  let '(ds, dt, dc) := delta m (success_code m) in
  Z.of_nat (length (students d')) = Z.of_nat (length (students d)) + ds
  ∧ Z.of_nat (length (teachers d')) = Z.of_nat (length (teachers d)) + dt
  ∧ Z.of_nat (length (classes d')) = Z.of_nat (length (classes d)) + dc.
Proof.
  intros ((Hid & _) & _ & _) Hroute.
  unfold delta. rewrite Z.eqb_refl.
  destruct m, c; simpl in Hroute; try done; simpl.
  - destruct (insert_student _ _ _) eqn:E; [done|]. intros [= <-].
    apply insert_student_appends in E as ->. simpl.
    rewrite length_app. simpl. lia.
  - destruct (update_student_row _ _ _) eqn:E; [done|]. intros [= <-].
    apply update_student_row_length in E. simpl. lia.
  - intros [= <-]. simpl.
    pose proof (delete_student_row_length _ _ _ Hid Hroute). lia.
  - destruct (insert_teacher _ _ _) eqn:E; [done|]. intros [= <-].
    apply insert_teacher_appends in E as ->. simpl.
    rewrite length_app. simpl. lia.
  - destruct (insert_class _ _ _) eqn:E; [done|]. intros [= <-].
    apply insert_class_appends in E as ->. simpl.
    rewrite length_app. simpl. lia.
Qed.

(** X5. The statistics follow the mutations. After a mutating route has
    answered, with a status other than 500, on tables that satisfy their
    constraints, GET /api/stats (its counts being answered) reports the
    former counts, changed by exactly one row of the route's own table
    when the route answered its success status (201 for the creations,
    200 for DELETE; a PUT never changes a count) and not at all when it
    answered 400 or 404. *)
Theorem stats_follow_mutation (m : mutation) (ev ev' : env) (req : request)
    (d : database) (body : json) (code : Z) (w' : world) :
  database_ok d →
  route m ev req (fresh d) = (inr (body, code), w') →
  code ≠ 500 →
  let '(ds, dt, dc) := delta m code in
  get_stats ev' None w'
  = (inr (stats_json (Z.of_nat (length (students d)) + ds)
                     (Z.of_nat (length (teachers d)) + dt)
                     (Z.of_nat (length (classes d)) + dc)
                     (utcnow ev'), 200), w').
Proof.
  intros Hok Hrun Hcode.
  destruct (route_outcome m ev req d) as (body' & code' & d' & E & H).
  rewrite Hrun in E. injection E as -> -> ->.
  destruct H as [[Hin ->]|[[-> (_ & c & Hc & Happly)]|[-> _]]]; [| |done].
  - assert (Hno : Z.eqb code' (success_code m) = false).
    { apply Z.eqb_neq. revert Hin.
      rewrite !elem_of_cons, elem_of_nil. destruct m; simpl; lia. }
    unfold delta. rewrite Hno.
    destruct m; simpl; rewrite ?Z.add_0_r; reflexivity.
  - pose proof (apply_change_counts m ev d c d' Hok Hc Happly) as Hcount.
    destruct (delta m (success_code m)) as [[ds dt] dc].
    destruct Hcount as (Hs & Ht & Hcl).
    unfold get_stats, get_stats_body, count_students, count_teachers,
      count_classes, answered, stats_json. run. by rewrite Hs, Ht, Hcl.
Qed.

Lemma find_appended (rows : list Student.t) (row : Student.t) :
  (∀ r, r ∈ rows → Student.id r < Student.id row) →
  List.find (fun r => Z.eqb (Student.id r) (Student.id row)) (rows ++ [row])
  = Some row.
Proof.
  induction rows as [|r rows IH]; simpl; intros H.
  - by rewrite Z.eqb_refl.
  - destruct (Z.eqb_spec (Student.id r) (Student.id row)) as [E|_].
    + specialize (H r ltac:(left)). lia.
    + apply IH. intros r' Hr'. apply H. by right.
Qed.

Lemma rows_below_next_id (rows : list Student.t) (r : Student.t) :
  r ∈ rows → Student.id r < next_id (Student.id <$> rows).
Proof.
  intros Hr. apply next_id_above, list_elem_of_fmap. by exists r.
Qed.

(** X6. A created student can be fetched. When POST /api/students/ answers
    201, the body carries the new primary key under 'id', and a GET on
    that key right after returns the same body with status 200. *)
Theorem created_student_can_be_fetched (ev : env) (req : request)
    (d : database) (body : json) (w' : world) :
  create_student ev req (fresh d) = (inr (body, 201), w') →
  ∃ pk,
    json_field "id" body = Some (JVal (PInt pk))
    ∧ get_student pk w' = (inr (body, 200), w').
Proof.
  destruct req as [args [e|[dct|t]]]; [intros [=]| |intros [=]].
  intros H. apply create_student_201 in H as [-> Hbody].
  set (row := Student.inserted (next_id (Student.id <$> students d))
                (utcnow ev) (requested_student ev dct)) in *.
  exists (Student.id row). split.
  - revert Hbody. unfold Student.to_dict. simpl. by intros [= <-].
  - unfold get_student, get_student_body, lift, try_except, mbind, M_bind.
    rewrite (query_get_some (Student.id row) _ row).
    + by rewrite Hbody.
    + apply (find_appended (students d) row).
      intros r Hr. by apply rows_below_next_id.
Qed.

Lemma create_class_201 ev args dct d body w' :
  create_class ev (mk_request args (inr (Obj dct))) (fresh d)
  = (inr (body, 201), w') →
  let row := Class_.inserted (next_id (Class_.id <$> classes d))
               (utcnow ev) (requested_class dct) in
  w' = fresh (mk_database (students d) (teachers d) (classes d ++ [row]))
  ∧ body = Class_.to_dict (students d) row.
Proof.
  destruct (forallb (fun k => truthy (lookup_or dct k PNone))
              ["class_name"; "grade_level"]) eqn:Hreq.
  - apply forallb_has_required in Hreq.
    unfold create_class, try_except.
    rewrite (create_class_body_run ev args dct d Hreq).
    destruct (insert_class _ _ _) as [e|rows] eqn:Hins; [intros [=]|].
    apply insert_class_appends in Hins as ->.
    destruct (commit_fault ev); [intros [=]|]. cbv zeta.
    destruct (reload_fault ev); [intros [=]|].
    rewrite last_last. by intros [= <- <-].
  - rewrite (create_class_rejects ev args dct (fresh d) Hreq). intros [=].
Qed.


Lemma other_students_elem_iff (s r : Student.t) (rows : list Student.t) :
  r ∈ other_students s rows ↔ r ∈ rows ∧ Student.id r ≠ Student.id s.
Proof.
  unfold other_students. rewrite !list_elem_of_In, filter_In.
  rewrite negb_true_iff, Z.eqb_neq. done.
Qed.

(** X8. A deleted student is gone, and only that student. For an id
    within 64 bits that names a stored student, when the commit does not
    fail, DELETE answers 200 'Student deleted successfully'; afterwards
    the table holds exactly the former rows with another id, a GET on the
    id answers 404 and so does a second DELETE. *)
Theorem deleted_student_is_gone (ev : env) (d : database) (pk : Z)
    (s : Student.t) :
  List.find (fun r => Z.eqb (Student.id r) pk) (students d) = Some s →
  int64_min ≤ pk ≤ int64_max →
  commit_fault ev = None →
  ∃ d',
    delete_student ev pk (fresh d)
    = (inr (message "Student deleted successfully", 200), fresh d')
    ∧ (∀ r, r ∈ students d' ↔ r ∈ students d ∧ Student.id r ≠ pk)
    ∧ get_student pk (fresh d')
      = (inr (error "Student not found", 404), fresh d')
    ∧ delete_student ev pk (fresh d')
      = (inr (error "Student not found", 404), fresh d').
Proof.
  intros Hfind Hrange Hfault.
  destruct (find_id_some Student.id _ _ _ Hfind) as [_ Hpk].
  eexists. split.
  { unfold delete_student, try_except.
    rewrite (delete_student_body_run ev d pk s Hfind), Hfault. reflexivity. }
  assert (Hrows : ∀ r, r ∈ delete_student_row s (students d)
                       ↔ r ∈ students d ∧ Student.id r ≠ pk).
  { intros r. unfold delete_student_row.
    by rewrite other_students_elem_iff, Hpk. }
  split; [exact Hrows|].
  apply (missing_student_is_404 ev); [|done].
  intros r Hr. by apply Hrows in Hr as [_ ?].
Qed.

(** ** Repeating and framing a PUT *)

(** A PUT that answered 200 carried a JSON object. *)
Lemma update_student_200_object ev req d pk body w' :
  update_student ev req pk (fresh d) = (inr (body, 200), w') →
  ∃ args dct, req = mk_request args (inr (Obj dct)).
Proof.
  destruct req as [args [e|[dct|t]]]; [|by eauto|];
    destruct (List.find (fun r => Z.eqb (Student.id r) pk) (students d))
      as [s|] eqn:Hfind;
    unfold update_student, update_student_body, get_json, dict_get; run;
    rewrite ?(query_get_some pk (fresh d) s Hfind),
      ?(query_get_missing pk (fresh d) Hfind);
    try destruct (bindable (PInt pk)); simpl; intros [=].
Qed.

(** What a PUT that answered 200 has done. *)
Lemma update_student_200 ev args dct d pk body w' :
  update_student ev (mk_request args (inr (Obj dct))) pk (fresh d)
  = (inr (body, 200), w') →
  ∃ s,
    List.find (fun r => Z.eqb (Student.id r) pk) (students d) = Some s
    ∧ let stored := row_after ev s (overwritten dct s) in
      Student.to_dict stored = inr body
      ∧ w' = fresh (mk_database
                      (if decide (s = overwritten dct s) then students d
                       else replace_student stored (students d))
                      (teachers d) (classes d))
      ∧ List.find (fun r => Z.eqb (Student.id r) pk) (students (db w'))
        = Some stored.
Proof.
  destruct (List.find (fun r => Z.eqb (Student.id r) pk) (students d))
    as [s|] eqn:Hfind.
  - destruct (find_id_some Student.id _ _ _ Hfind) as [_ Hpk].
    assert (Hfind' : List.find
              (fun r => Z.eqb (Student.id r) (Student.id s)) (students d)
            = Some s) by (by rewrite Hpk).
    unfold update_student, try_except.
    rewrite (update_student_body_run ev args dct d pk s Hfind).
    destruct (update_student_row _ _ _) as [e|rows] eqn:Hrow;
      [intros [=]|].
    pose proof (find_after_update _ _ _ _ _ Hfind' Hrow) as Hafter.
    apply (update_student_row_result _ _ _ _ _ Hfind') in Hrow as ->.
    destruct (commit_fault ev); [intros [=]|]. cbv zeta.
    destruct (reload_fault ev); [intros [=]|].
    rewrite Hafter.
    destruct (Student.to_dict _) as [e|body'] eqn:Hbody; [intros [=]|].
    intros [= <- <-]. exists s. split; [done|]. cbv zeta.
    split; [exact Hbody|]. simpl. rewrite <- Hpk.
    unfold row_after in *.
    by destruct (decide (s = overwritten dct s)).
  - unfold update_student, update_student_body. run.
    rewrite (query_get_missing pk (fresh d) Hfind).
    destruct (bindable (PInt pk)); simpl; intros [=].
Qed.

Lemma overwritten_fixed (d : gmap string pyval) (r : Student.t) :
  (∀ key get, (key, get) ∈ updatable → lookup_or d key (get r) = get r) →
  overwritten d r = r.
Proof.
  intros H. unfold overwritten.
  rewrite (H "first_name" Student.first_name),
    (H "last_name" Student.last_name), (H "email" Student.email),
    (H "phone" Student.phone), (H "status" Student.status);
    [by destruct r|..]; listed.
Qed.

(** X9. PUT is idempotent for text. When a PUT whose values of
    first_name, last_name, email, phone and status are text or null has
    answered 200, sending the same payload again (commit and reload not
    failing) answers 200 with the same body and changes nothing: no row
    is written, not even [updated_at]. *)
Theorem put_twice_is_put_once (ev ev' : env) (args : gmap string Z)
    (dct : gmap string pyval) (d : database) (pk : Z) (body : json)
    (w' : world) :
  update_student ev (mk_request args (inr (Obj dct))) pk (fresh d)
  = (inr (body, 200), w') →
  stored_as_given dct →
  commit_fault ev' = None →
  reload_fault ev' = None →
  update_student ev' (mk_request args (inr (Obj dct))) pk w'
  = (inr (body, 200), w').
Proof.
  intros Hfirst Htext Hfault Hreload.
  apply update_student_200 in Hfirst as (s & Hfind & Hbody & -> & Hstored).
  set (stored := row_after ev s (overwritten dct s)) in *.
  assert (Hfix : ∀ key get, (key, get) ∈ updatable →
                   lookup_or dct key (get stored) = get stored).
  { intros key get Hin. unfold lookup_or.
    destruct (dct !! key) as [v|] eqn:Hkey; [|done].
    unfold stored. rewrite (row_after_field ev dct s key get Hin).
    unfold lookup_or. rewrite Hkey. unfold Student.store_column.
    destruct (decide (get s = v)) as [->|_]; [done|].
    symmetry. by apply (Htext key get). }
  pose proof (overwritten_fixed dct stored Hfix) as Hidem.
  assert (Hdate : enrolled stored).
  { unfold enrolled. revert Hbody. unfold Student.to_dict.
    destruct (Student.enrollment_date stored); [by eexists|done]. }
  assert (Hacc : store_accepts_update stored dct
                   (students (mk_database
                      (if decide (s = overwritten dct s) then students d
                       else replace_student stored (students d))
                      (teachers d) (classes d)))).
  { unfold store_accepts_update. split.
    - intros key get Hin. left. by apply Hfix.
    - rewrite (Hfix "first_name" Student.first_name),
        (Hfix "last_name" Student.last_name),
        (Hfix "email" Student.email); [tauto|..]; listed. }
  destruct (update_student_accepted ev' args dct _ pk stored Hstored Hdate
              Hfault Hreload Hacc) as (body' & Hrun & Hbody' & _).
  simpl in Hrun. rewrite Hidem in Hrun, Hbody'. unfold row_after in Hbody'.
  destruct (decide (stored = stored)) as [_|]; [|done].
  rewrite Hbody in Hbody'. injection Hbody' as <-. exact Hrun.
Qed.

(** X10. A PUT touches one student. When a PUT on student [pk] has
    answered 200, the students table has as many rows as before and every
    row with another id is where and what it was. *)
Theorem put_keeps_other_students (ev : env) (req : request) (d : database)
    (pk : Z) (body : json) (w' : world) :
  update_student ev req pk (fresh d) = (inr (body, 200), w') →
  length (students (db w')) = length (students d)
  ∧ ∀ (i : nat) (r : Student.t),
      students d !! i = Some r → Student.id r ≠ pk →
      students (db w') !! i = Some r.
Proof.
  intros Hrun.
  destruct (update_student_200_object _ _ _ _ _ _ Hrun)
    as (args & dct & ->).
  apply update_student_200 in Hrun as (s & Hfind & _ & -> & _).
  destruct (find_id_some Student.id _ _ _ Hfind) as [_ Hpk].
  simpl. destruct (decide (s = overwritten dct s)); [done|].
  unfold replace_student. split; [apply length_fmap|].
  intros i r Hi Hr. rewrite list_lookup_fmap, Hi. simpl.
  rewrite row_after_id by done.
  destruct (Z.eqb_spec (Student.id r) (Student.id s)) as [E|_]; [|done].
  congruence.
Qed.

(** ** The page count, explicit codes, class defaults *)

Lemma ceil_div (n s : Z) : 0 < s → - ((- n) / s) = (n + s - 1) / s.
Proof.
  intros Hs.
  pose proof (Z.div_mod (- n) s ltac:(lia)) as H1.
  pose proof (Z.mod_pos_bound (- n) s Hs) as B1.
  pose proof (Z.div_mod (n + s - 1) s ltac:(lia)) as H2.
  pose proof (Z.mod_pos_bound (n + s - 1) s Hs) as B2.
  nia.
Qed.

Lemma page_exists_iff_within_pages (p s n : Z) :
  1 ≤ p → 1 ≤ s → 0 ≤ n →
  page_exists p s n ↔ p ≤ Z.max 1 ((n + s - 1) / s).
Proof.
  intros Hp Hs Hn. unfold page_exists.
  pose proof (Z.div_mod (n + s - 1) s ltac:(lia)) as H2.
  pose proof (Z.mod_pos_bound (n + s - 1) s ltac:(lia)) as B2.
  split.
  - intros (_ & _ & [->|[_ Hlt]]); [lia|]. nia.
  - intros H. split; [done|]. split; [lia|].
    destruct (decide (p = 1)) as [->|Hne]; [by left|right].
    split; [lia|]. nia.
Qed.

(** X11. The 'pages' field tells which pages exist. For a page size s of
    at least 1 over n students, size and offset within 64 bits, a listing
    answered 200 carries pages = ceil(n / s); page p (at least 1) whose
    students have an enrollment date is answered 200 when p is at most
    max(1, pages), so the first page is, also on an empty table, and any
    later page number is answered 500. *)
Theorem pages_field_bounds_pages (req : request) (w : world) :
  let p := args_get req "page" 1 in
  let s := args_get req "per_page" 10 in
  let n := Z.of_nat (length (students (db w))) in
  let pages := (n + s - 1) / s in
  let slice :=
    take (Z.to_nat s) (drop (Z.to_nat ((p - 1) * s)) (students (db w))) in
  1 ≤ p → 1 ≤ s → page_bindable p s →
  (p ≤ Z.max 1 pages → Forall enrolled slice →
     ∃ items,
       get_all_students req w
       = (inr (JDict [("students", JList items);
                      ("total", JVal (PInt n));
                      ("pages", JVal (PInt pages));
                      ("current_page", JVal (PInt p))], 200), w))
  ∧ (Z.max 1 pages < p →
       get_all_students req w = (inr (error (str NotFound), 500), w)).
Proof.
  intros p s n pages slice Hp Hs Hbind.
  pose proof (page_exists_iff_within_pages p s n Hp Hs ltac:(lia)) as Hiff.
  split.
  - intros H Hdates. apply Hiff in H.
    destruct (for_each_student slice Hdates) as (items & Hitems & _).
    exists items.
    unfold get_all_students, get_all_students_body, query.all_students,
      lift.
    run. fold p s. rewrite (paginate_existing _ p s w H Hbind).
    unfold query.pages. simpl. fold slice. rewrite Hitems.
    destruct (Z.eqb_spec s 0) as [?|_]; [lia|].
    fold n. rewrite (ceil_div n s ltac:(lia)). reflexivity.
  - intros H. assert (Hno : ¬ page_exists p s n) by (rewrite Hiff; lia).
    unfold get_all_students, get_all_students_body, query.all_students.
    run. fold p s. rewrite (paginate_missing _ p s w Hno); [done|].
    by right; right.
Qed.


(** X14. What a created class is given. When POST /api/classes/ answers
    201, the new row is appended with status 'active' whatever status the
    caller sent, max_capacity 40 when the payload has no such key or null
    under it, the payload's integer when it has one, also when it is
    spelled as text, and the student_count of the body counts the stored
    students whose class_id is the new id. *)
Theorem create_class_defaults (ev : env) (args : gmap string Z)
    (dct : gmap string pyval) (d : database) (body : json) (w' : world) :
  create_class ev (mk_request args (inr (Obj dct))) (fresh d)
  = (inr (body, 201), w') →
  ∃ row,
    classes (db w') = classes d ++ [row]
    ∧ body = Class_.to_dict (students d) row
    ∧ Class_.status row = PStr "active"
    ∧ (dct !! "max_capacity" = None ∨ dct !! "max_capacity" = Some PNone →
         Class_.max_capacity row = PInt 40)
    ∧ (∀ n, dct !! "max_capacity" = Some (PInt n) →
         Class_.max_capacity row = PInt n)
    ∧ (∀ s n, dct !! "max_capacity" = Some (PStr s) →
         int_literal s = Some n → Class_.max_capacity row = PInt n)
    ∧ json_field "student_count" body
      = Some (JVal (PInt (Z.of_nat (length
          (filter (fun s => Student.class_id s = Some (Class_.id row))
                  (students d)))))).
Proof.
  intros H. apply create_class_201 in H as [-> ->]. eexists.
  split; [reflexivity|]. split; [reflexivity|]. split; [reflexivity|].
  split; [|split; [|split]].
  - intros [Hnone|Hnull]; simpl; unfold lookup_or;
      [by rewrite Hnone|by rewrite Hnull].
  - intros n Hsome. simpl. unfold lookup_or. by rewrite Hsome.
  - intros s n Hsome Hlit. simpl. unfold lookup_or.
    by rewrite Hsome, Hlit.
  - rewrite <- class_students_filter. reflexivity.
Qed.

(** ** Examples for the further properties *)

(** Concrete columns without a repeated value. *)
Ltac distinct :=
  repeat (apply NoDup_cons_2;
          [rewrite ?elem_of_cons, elem_of_nil; intros H;
           repeat (destruct H as [H|H]; [discriminate H|]); exact H|]);
  apply NoDup_nil_2.

Lemma school_ok : database_ok school.
Proof.
  unfold database_ok, students_ok, teachers_ok, classes_ok. simpl.
  repeat split; try distinct; repeat constructor; done.
Qed.

Lemma mutating_route_keeps_constraints_witness :
  database_ok (db (create_student ev0 (post grace) (fresh school)).2)
  ∧ database_ok
      (db (update_student ev0 (put {[ "email" := PStr "bob@liontech.example" ]})
             1 (fresh school)).2).
Proof.
  split.
  - exact (mutating_route_keeps_constraints CreateStudent ev0 (post grace)
             school school_ok).
  - exact (mutating_route_keeps_constraints (UpdateStudent 1) ev0
             (put {[ "email" := PStr "bob@liontech.example" ]})
             school school_ok).
Defined.

Lemma stats_follow_mutation_witness :
  get_stats ev1 None (fresh (mk_database [bob] [] [form1]))
  = (inr (stats_json 1 0 1 (utcnow ev1), 200),
     fresh (mk_database [bob] [] [form1])).
Proof.
  assert (H : route (DeleteStudent 1) ev0 (mk_request ∅ no_json)
                (fresh school)
              = (inr (message "Student deleted successfully", 200),
                 fresh (mk_database [bob] [] [form1])))
    by (vm_compute; reflexivity).
  assert (Hcode : (200 : Z) ≠ 500) by discriminate.
  exact (stats_follow_mutation (DeleteStudent 1) ev0 ev1
           (mk_request ∅ no_json) school _ _ _ school_ok H Hcode).
Defined.

Lemma created_student_can_be_fetched_witness :
  ∃ pk body w',
    create_student ev0 (post grace) (fresh school) = (inr (body, 201), w')
    ∧ json_field "id" body = Some (JVal (PInt pk))
    ∧ get_student pk w' = (inr (body, 200), w').
Proof.
  destruct (create_student ev0 (post grace) (fresh school)) as [r w'] eqn:E.
  assert (Hr : ∃ body, r = inr (body, 201)).
  { apply (f_equal fst) in E. vm_compute in E. subst r. by eexists. }
  destruct Hr as [body ->].
  destruct (created_student_can_be_fetched ev0 (post grace) school body w' E)
    as (pk & Hid & Hget).
  by exists pk, body, w'.
Defined.


Lemma deleted_student_is_gone_witness :
  ∃ d',
    delete_student ev0 2 (fresh school)
    = (inr (message "Student deleted successfully", 200), fresh d')
    ∧ get_student 2 (fresh d')
      = (inr (error "Student not found", 404), fresh d').
Proof.
  assert (Hrange : int64_min ≤ 2 ≤ int64_max)
    by (vm_compute; split; discriminate).
  destruct (deleted_student_is_gone ev0 school 2 bob eq_refl Hrange eq_refl)
    as (d' & Hrun & _ & Hget & _).
  by exists d'.
Defined.

Lemma put_twice_is_put_once_witness :
  ∃ body w',
    update_student ev0 (put {[ "phone" := PStr "555-0199" ]}) 1 (fresh school)
    = (inr (body, 200), w')
    ∧ update_student ev1 (put {[ "phone" := PStr "555-0199" ]}) 1 w'
      = (inr (body, 200), w').
Proof.
  destruct (update_student ev0 (put {[ "phone" := PStr "555-0199" ]}) 1
              (fresh school)) as [r w'] eqn:E.
  assert (Hr : ∃ body, r = inr (body, 200)).
  { apply (f_equal fst) in E. vm_compute in E. subst r. by eexists. }
  destruct Hr as [body ->].
  exists body, w'. split; [done|].
  apply (put_twice_is_put_once ev0 ev1 ∅ {[ "phone" := PStr "555-0199" ]}
           school 1 body w' E); [|reflexivity..].
  intros key get v Hin Hkey. unfold updatable in Hin.
  rewrite !elem_of_cons, elem_of_nil in Hin.
  repeat (destruct Hin as [Hin|Hin];
          [injection Hin as -> ->; vm_compute in Hkey;
           first [discriminate Hkey | by injection Hkey as <-]|]).
  destruct Hin.
Defined.

Lemma put_keeps_other_students_witness :
  ∃ body w',
    update_student ev0 (put {[ "phone" := PStr "555-0199" ]}) 1 (fresh school)
    = (inr (body, 200), w')
    ∧ students (db w') !! 1%nat = Some bob.
Proof.
  destruct (update_student ev0 (put {[ "phone" := PStr "555-0199" ]}) 1
              (fresh school)) as [r w'] eqn:E.
  assert (Hr : ∃ body, r = inr (body, 200)).
  { apply (f_equal fst) in E. vm_compute in E. subst r. by eexists. }
  destruct Hr as [body ->].
  exists body, w'. split; [done|].
  destruct (put_keeps_other_students ev0 _ school 1 body w' E) as [_ Hkeep].
  apply Hkeep; [reflexivity|discriminate].
Defined.

Lemma pages_field_bounds_pages_witness :
  (∃ items,
     get_all_students (mk_request {[ "page" := 2; "per_page" := 2 ]} no_json)
                      (fresh school3)
     = (inr (JDict [("students", JList items);
                    ("total", JVal (PInt 3));
                    ("pages", JVal (PInt 2));
                    ("current_page", JVal (PInt 2))], 200), fresh school3))
  ∧ get_all_students (mk_request {[ "page" := 3; "per_page" := 2 ]} no_json)
                     (fresh school3)
    = (inr (error (str NotFound), 500), fresh school3).
Proof.
  split.
  - destruct (pages_field_bounds_pages
                (mk_request {[ "page" := 2; "per_page" := 2 ]} no_json)
                (fresh school3)) as [Hok _].
    { vm_compute. discriminate. }
    { vm_compute. discriminate. }
    { unfold page_bindable. vm_compute. split; discriminate. }
    destruct Hok as [items Hrun].
    { vm_compute. discriminate. }
    { vm_compute. repeat constructor; by eexists. }
    exists items. exact Hrun.
  - destruct (pages_field_bounds_pages
                (mk_request {[ "page" := 3; "per_page" := 2 ]} no_json)
                (fresh school3)) as [_ Hno].
    { vm_compute. discriminate. }
    { vm_compute. discriminate. }
    { unfold page_bindable. vm_compute. split; discriminate. }
    apply Hno. vm_compute. reflexivity.
Defined.



Lemma create_class_defaults_witness :
  ∃ body w' row,
    create_class ev0 (post {[ "class_name" := PStr "Form 2";
                              "grade_level" := PStr "8";
                              "max_capacity" := PStr "50";
                              "status" := PStr "closed" ]}) (fresh school)
    = (inr (body, 201), w')
    ∧ classes (db w') = [form1; row]
    ∧ Class_.status row = PStr "active"
    ∧ Class_.max_capacity row = PInt 50.
Proof.
  destruct (create_class ev0 (post {[ "class_name" := PStr "Form 2";
                                      "grade_level" := PStr "8";
                                      "max_capacity" := PStr "50";
                                      "status" := PStr "closed" ]})
              (fresh school)) as [r w'] eqn:E.
  assert (Hr : ∃ body, r = inr (body, 201)).
  { apply (f_equal fst) in E. vm_compute in E. subst r. by eexists. }
  destruct Hr as [body ->].
  destruct (create_class_defaults ev0 ∅ _ school body w' E)
    as (row & Hrows & _ & Hstatus & _ & _ & Htext & _).
  exists body, w', row. split; [done|]. split; [exact Hrows|].
  split; [exact Hstatus|].
  apply (Htext "50"); vm_compute; reflexivity.
Defined.
